(** * Shelly Smart Night Heater: a shallow embedding of [script.js]

    [script.js] holds two releases of the script, version 4.2 (lines 1-220)
    and version 5.0 (lines 221-493).  Both are embedded, each in a module of
    its own ([V42], [V50]); what they share textually ([timeToSeconds],
    [secondsToTime], the two duration calculators, [sendTelegramNotification])
    is defined once.

    The window arithmetic (span, clamping, start inside the window) exists
    only in version 4.2; the list / delete / create sequence with its error
    handling and the daily trigger exist only in version 5.0.  [Startup]
    holds [initializeTimers] of version 5.0.

    Conventions of the embedding.
    - A JavaScript number that the script only ever uses as an integer
      (seconds, switch ids, error codes) is a [Z]; temperatures and hours are
      exact rationals [Q] (IEEE rounding of [-], [*] and [/] and the value NaN
      are not modelled).
    - A string is a [string] of bytes (UTF-8); the characters the script
      splits on are ASCII, which never occur inside a multi-byte sequence.
    - The script is a chain of [Shelly.call] callbacks.  Every function here
      takes the answers of the host, threads the script's global variables
      and returns the list of calls it issued, in the order of the source
      text; [console.log] output is not recorded.  *)

From Stdlib Require Import ZArith QArith Qround Qabs Qminmax Bool List Ascii String Lia.
From Stdlib Require Import DecimalString Sorting.Sorted Lqa.
Import ListNotations.

Local Open Scope string_scope.
Local Open Scope Z_scope.

(** ** JavaScript primitives used by the script *)

Module Js.

(** [a % b] on integers: the sign follows the dividend. *)
Definition rem (a b : Z) : Z := Z.rem a b.

(** [String(n)] for an integer [n]. *)
Definition String_ (n : Z) : string := NilZero.string_of_int (Z.to_int n).

(** [String(b)] for a boolean. *)
Definition String_bool (b : bool) : string := if b then "true" else "false".

(** [Math.round]: to the nearest integer, halves towards plus infinity. *)
Definition Math_round (x : Q) : Z := Qfloor (x + (1 # 2))%Q.

(** [s.split(c)] for a one-character separator. *)
Fixpoint split (c : ascii) (s : string) : list string :=
  match s with
  | EmptyString => [EmptyString]
  | String a s' =>
      if Ascii.eqb a c then EmptyString :: split c s'
      else match split c s' with
           | [] => [String a EmptyString]
           | p :: ps => String a p :: ps
           end
  end.

(** [parts.join(r)]. *)
Fixpoint join (r : string) (parts : list string) : string :=
  match parts with
  | [] => EmptyString
  | [p] => p
  | p :: ps => p ++ r ++ join r ps
  end.

Definition isWhite (a : ascii) : bool :=
  let n := N_of_ascii a in
  ((9 <=? n) && (n <=? 13))%N || (n =? 32)%N.

Fixpoint trimStart (s : string) : string :=
  match s with
  | String a s' => if isWhite a then trimStart s' else s
  | EmptyString => EmptyString
  end.

Definition digitValue (a : ascii) : option Z :=
  let n := Z.of_N (N_of_ascii a) in
  if (48 <=? n) && (n <=? 57) then Some (n - 48)
  else if (97 <=? n) && (n <=? 122) then Some (n - 87)
  else if (65 <=? n) && (n <=? 90) then Some (n - 55)
  else None.

(** The longest prefix of digits of the radix, read left to right;
    [None] when there is no digit at all. *)
Fixpoint digits (radix : Z) (acc : option Z) (s : string) : option Z :=
  match s with
  | EmptyString => acc
  | String a s' =>
      match digitValue a with
      | Some d =>
          if d <? radix
          then digits radix (Some (radix * match acc with Some v => v | None => 0 end + d)) s'
          else acc
      | None => acc
      end
  end.

Definition unsignedInt (s : string) : option Z :=
  match s with
  | String "0" (String "x" s') | String "0" (String "X" s') => digits 16 None s'
  | _ => digits 10 None s
  end.

(** [parseInt(s)] without a radix; [None] is NaN. *)
Definition parseInt (s : string) : option Z :=
  match trimStart s with
  | String "-" s' => option_map Z.opp (unsignedInt s')
  | String "+" s' => unsignedInt s'
  | s' => unsignedInt s'
  end.

(** [x.toFixed(2)]: the magnitude rounded to hundredths, halves upwards. *)
Definition toFixed2 (x : Q) : string :=
  let n := Qfloor (Qabs x * 100 + (1 # 2))%Q in
  let frac := n mod 100 in
  ((if Qlt_le_dec x 0%Q then "-" else "") ++
   String_ (n / 100) ++ "." ++ (if frac <? 10 then "0" else "") ++ String_ frac).

(** Numbers that may be NaN ([None]): arithmetic propagates NaN and every
    comparison with NaN is false. *)
Definition num := option Z.

Definition lift2 (f : Z -> Z -> Z) (a b : num) : num :=
  match a, b with
  | Some x, Some y => Some (f x y)
  | _, _ => None
  end.

Definition cmp (f : Z -> Z -> bool) (a b : num) : bool :=
  match a, b with
  | Some x, Some y => f x y
  | _, _ => false
  end.

Definition add := lift2 Z.add.
Definition sub := lift2 Z.sub.
Definition gtb := cmp Z.gtb.
Definition geb := cmp Z.geb.
Definition ltb := cmp Z.ltb.

(** [String(x)] for a number that may be NaN. *)
Definition String_num (x : num) : string :=
  match x with
  | Some n => String_ n
  | None => "NaN"
  end.

End Js.

(** ** Configuration, host calls and script globals *)

(** The [CONFIG] object.  Coordinates only ever enter a URL, so they are
    kept as the text the script concatenates. *)
Record config := {
  SWITCH_IDS : list Z;
  CHARGING_WINDOW_START : string;
  CHARGING_WINDOW_END : string;
  LATITUDE : string;
  LONGITUDE : string;
  START_TEMP : Q;
  SLOPE : Q;
  MAX_RUNTIME_HOURS : Q;
  FALLBACK_HOURS_Q1 : Q;
  FALLBACK_HOURS_Q2 : Q;
  FALLBACK_HOURS_Q3 : Q;
  FALLBACK_HOURS_Q4 : Q;
  TELEGRAM_BOT_TOKEN : string;
  TELEGRAM_CHAT_ID : string;
  SEND_TELEGRAM_SCHEDULE_LIST : bool;
  SEND_TELEGRAM_NEW_SCHEDULE : bool;
  IS_TEST_MODE : bool;
  TEST_INTERVAL_MINUTES : Z;
  TIMEZONE : string;
  DATA_FETCH_TIME : string
}.

(** The [Shelly.call] requests the script issues.
    [Schedule_DeleteAll] and [Schedule_Create] carry the optional [id]
    parameter that version 4.2 passes and version 5.0 omits. *)
Inductive call :=
| HTTP_GET (url : string)
| Sys_GetStatus
| Schedule_List
| Schedule_DeleteAll (id : option Z)
| Schedule_Create (id : option Z) (timespec : string) (switchId : Z) (toggle_after : Z).

(** What [JSON.parse(res.body)] followed by reading
    [data.hourly.temperature_2m] gives: an exception with its message, or
    the series. *)
Inductive forecastBody :=
| Throws (message : string)
| Hourly (temperature_2m : list Q).

Record httpResponse := { code : Z; body : forecastBody }.

(** A [Sys.GetStatus] result; [time] may be missing. *)
Record sysStatus := { time : option string; unixtime : Z }.

(** An entry of [Schedule.List]. *)
Record job := { job_id : Z; job_enable : bool; job_timespec : string }.

(** The answers of the host during one decision cycle. *)
Record host := {
  forecast_err : Z;
  forecast_res : option httpResponse;
  status : option sysStatus;
  getMonth : Z -> Z;
  list_err : Z;
  list_jobs : option (list job);
  delete_err : Z;
  create_err : Z -> Z
}.

(** The script's global variables. *)
Record globals := {
  nextChargingDurationSeconds : Z;
  lastAvgTemp : Q;
  hasRunToday : bool
}.

Definition initialGlobals : globals :=
  {| nextChargingDurationSeconds := -1; lastAvgTemp := (-999)%Q; hasRunToday := false |}.

Definition set_nextChargingDurationSeconds (g : globals) (d : Z) : globals :=
  {| nextChargingDurationSeconds := d; lastAvgTemp := lastAvgTemp g; hasRunToday := hasRunToday g |}.

Definition set_lastAvgTemp (g : globals) (t : Q) : globals :=
  {| nextChargingDurationSeconds := nextChargingDurationSeconds g; lastAvgTemp := t;
     hasRunToday := hasRunToday g |}.

Definition set_hasRunToday (g : globals) (b : bool) : globals :=
  {| nextChargingDurationSeconds := nextChargingDurationSeconds g; lastAvgTemp := lastAvgTemp g;
     hasRunToday := b |}.

Definition nl : string := String (ascii_of_nat 10) EmptyString.

(** ** Code common to both versions *)

Definition timeToSeconds (timeStr : string) : Js.num :=
  let parts := Js.split ":" timeStr in
  match nth_error parts 0, nth_error parts 1 with
  | Some p0, Some p1 =>
      Js.add (option_map (fun h => h * 3600) (Js.parseInt p0))
             (option_map (fun m => m * 60) (Js.parseInt p1))
  | _, _ => None
  end.

Definition secondsToTime (seconds : Js.num) : string :=
  match seconds with
  | Some s =>
      let h := s / 3600 in
      let m := Js.rem s 3600 / 60 in
      (if h <? 10 then "0" else "") ++ Js.String_ h ++ ":" ++
      (if m <? 10 then "0" else "") ++ Js.String_ m
  | None => "NaN:NaN"
  end.

(** [(windowEndSeconds - nextChargingDurationSeconds + 24 * 3600) % (24 * 3600)],
    line 161 and line 400. *)
Definition dynamicStartSeconds (windowEndSeconds : Js.num) (duration : Z) : Js.num :=
  option_map (fun e => Js.rem (e - duration + 24 * 3600) (24 * 3600)) windowEndSeconds.

Definition weatherUrl (cfg : config) : string :=
  "https://api.open-meteo.com/v1/forecast?latitude=" ++ LATITUDE cfg ++
  "&longitude=" ++ LONGITUDE cfg ++ "&hourly=temperature_2m&timezone=" ++
  TIMEZONE cfg ++ "&forecast_days=2".

Definition telegramUrl (cfg : config) (text : string) : string :=
  "https://api.telegram.org/bot" ++ TELEGRAM_BOT_TOKEN cfg ++
  "/sendMessage?chat_id=" ++ TELEGRAM_CHAT_ID cfg ++ "&text=" ++ text.

Section Notification.

Variable urlEncode : string -> string.

(** Nothing is requested while the bot token or the chat id is empty. *)
Definition sendTelegramNotification (cfg : config) (message : string) : list call :=
  if String.eqb (TELEGRAM_BOT_TOKEN cfg) "" || String.eqb (TELEGRAM_CHAT_ID cfg) ""
  then []
  else [HTTP_GET (telegramUrl cfg (urlEncode ("Shelly Heater: " ++ message)))].

End Notification.

(** The local [hours] of [calculateChargingDuration] (lines 117-119 and
    334-336). *)
Definition chargingHours (cfg : config) (avgTemp : Q) : Q :=
  let hours := if Qlt_le_dec avgTemp (START_TEMP cfg)
               then ((START_TEMP cfg - avgTemp) * SLOPE cfg)%Q else 0%Q in
  let hours := if Qlt_le_dec (MAX_RUNTIME_HOURS cfg) hours then MAX_RUNTIME_HOURS cfg else hours in
  let hours := if Qlt_le_dec hours 0%Q then 0%Q else hours in
  hours.

(** The local [hours] of [calculateFallbackDuration] (lines 129-130 and
    345-346). *)
Definition fallbackHours (cfg : config) (month : Z) : Q :=
  if month <=? 3 then FALLBACK_HOURS_Q1 cfg
  else if month <=? 6 then FALLBACK_HOURS_Q2 cfg
  else if month <=? 9 then FALLBACK_HOURS_Q3 cfg
  else FALLBACK_HOURS_Q4 cfg.

(** [res ? new Date(res.unixtime * 1000).getMonth() + 1 : 1]. *)
Definition fallbackMonth (h : host) : Z :=
  match status h with
  | Some res => getMonth h (unixtime res * 1000) + 1
  | None => 1
  end.

(** [temps.slice(24, 48)] and the average of lines 106-107 / 323-324. *)
Definition slice_24_48 (temps : list Q) : list Q := firstn 24 (skipn 24 temps).

Definition average (temps : list Q) : Q :=
  (fold_left Qplus temps 0 / inject_Z (Z.of_nat (List.length temps)))%Q.

(** ** Version 4.2 (lines 1-220) *)

Module V42.

Definition urlEncode (str : string) : string :=
  let s := str in
  let s := Js.join "%25" (Js.split "%" s) in
  let s := Js.join "%20" (Js.split " " s) in
  let s := Js.join "%26" (Js.split "&" s) in
  let s := Js.join "%2B" (Js.split "+" s) in
  let s := Js.join "%3F" (Js.split "?" s) in
  let s := Js.join "%3D" (Js.split "=" s) in
  let s := Js.join "%23" (Js.split "#" s) in
  let s := Js.join "%2F" (Js.split "/" s) in
  let s := Js.join "%3A" (Js.split ":" s) in
  let s := Js.join "%3B" (Js.split ";" s) in
  let s := Js.join "%3C" (Js.split "<" s) in
  let s := Js.join "%3E" (Js.split ">" s) in
  let s := Js.join "%22" (Js.split (ascii_of_nat 34) s) in
  let s := Js.join "%27" (Js.split "'" s) in
  let s := Js.join "%2E" (Js.split "." s) in
  let s := Js.join "%2C" (Js.split "," s) in
  s.

Definition notify := sendTelegramNotification urlEncode.

(** Lines 147-152. *)
Definition windowDurationSeconds (windowStartSeconds windowEndSeconds : Js.num) : Js.num :=
  if Js.gtb windowStartSeconds windowEndSeconds
  then Js.add (Js.sub (Some (24 * 3600)) windowStartSeconds) windowEndSeconds
  else Js.sub windowEndSeconds windowStartSeconds.

(** Lines 142-174 of [scheduleCharging]: from the window and the required
    duration to the final [nextChargingDurationSeconds] and
    [dynamicStartSeconds]. *)
Definition backwardSchedule (cfg : config) (required : Z) : Z * Js.num :=
  let windowEndSeconds := timeToSeconds (CHARGING_WINDOW_END cfg) in
  let windowStartSeconds := timeToSeconds (CHARGING_WINDOW_START cfg) in
  let windowDuration := windowDurationSeconds windowStartSeconds windowEndSeconds in
  let duration :=
    match windowDuration with
    | Some w => if required >? w then w else required
    | None => required
    end in
  let start := dynamicStartSeconds windowEndSeconds duration in
  let isOvernight := Js.gtb windowStartSeconds windowEndSeconds in
  let startIsInWindow :=
    if isOvernight
    then Js.geb start windowStartSeconds || Js.ltb start windowEndSeconds
    else Js.geb start windowStartSeconds && Js.ltb start windowEndSeconds in
  match windowDuration with
  | Some w =>
      if negb startIsInWindow && (w >? 0)
      then (w, windowStartSeconds)
      else (duration, start)
  | None => (duration, start)
  end.

(** The [Schedule.Create] callbacks are listed after the requests of the
    [forEach] loop, in the order of the switches. *)
Definition scheduleCharging (cfg : config) (h : host) (g : globals) : globals * list call :=
  let '(duration, start) := backwardSchedule cfg (nextChargingDurationSeconds g) in
  let g := set_nextChargingDurationSeconds g duration in
  let dynamicStartTimeStr := secondsToTime start in
  if IS_TEST_MODE cfg then (g, [])
  else
    let parts := Js.split ":" dynamicStartTimeStr in
    let cronExpr := "0 " ++ nth 1 parts "undefined" ++ " " ++ nth 0 parts "undefined" ++ " * * *" in
    (g,
     (flat_map (fun id =>
        Schedule_DeleteAll (Some id) ::
        (if duration >? 0 then [Schedule_Create (Some id) cronExpr id duration] else []))
        (SWITCH_IDS cfg) ++
      flat_map (fun id =>
        if duration >? 0
        then if create_err h id =? 0 then []
             else notify cfg ("Failed to create schedule for Switch " ++ Js.String_ id)
        else [])
        (SWITCH_IDS cfg))%list).

Definition calculateChargingDuration (cfg : config) (h : host) (avgTemp : Q) (g : globals)
  : globals * list call :=
  let hours := chargingHours cfg avgTemp in
  scheduleCharging cfg h (set_nextChargingDurationSeconds g (Js.Math_round (hours * 3600)%Q)).

Definition calculateFallbackDuration (cfg : config) (h : host) (g : globals)
  : globals * list call :=
  let hours := fallbackHours cfg (fallbackMonth h) in
  let '(g, calls) :=
    scheduleCharging cfg h (set_nextChargingDurationSeconds g (Js.Math_round (hours * 3600)%Q)) in
  (g, Sys_GetStatus :: calls).

Definition getWeatherAndCalculateDuration (cfg : config) (h : host) (g : globals)
  : globals * list call :=
  let failed (msg : string) :=
    let '(g, calls) := calculateFallbackDuration cfg h g in
    (g, (notify cfg msg ++ calls)%list) in
  let '(g, calls) :=
    match forecast_res h with
    | Some res =>
        if negb (forecast_err h =? 0) || negb (code res =? 200)
        then failed "Weather API unreachable."
        else
          match body res with
          | Hourly temperature_2m =>
              let temps := slice_24_48 temperature_2m in
              if (List.length temps <? 24)%nat then failed "Failed to parse weather data."
              else calculateChargingDuration cfg h (average temps) g
          | Throws _ => failed "Failed to parse weather data."
          end
    | None => failed "Weather API unreachable."
    end in
  (g, HTTP_GET (weatherUrl cfg) :: calls).

End V42.

(** ** Version 5.0 (lines 221-493) *)

Module V50.

Definition urlEncode (str : string) : string :=
  let s := str in
  let s := Js.join "%20" (Js.split " " s) in
  let s := Js.join "%3A" (Js.split ":" s) in
  let s := Js.join "%2E" (Js.split "." s) in
  let s := Js.join "%2C" (Js.split "," s) in
  let s := Js.join "%0A" (Js.split (ascii_of_nat 10) s) in
  s.

Definition notify := sendTelegramNotification urlEncode.

(** Lines 366-374. *)
Definition scheduleListMsg (h : host) : string :=
  "Existing schedules before deletion:" ++ nl ++
  match list_jobs h with
  | Some (j :: jobs) =>
      fold_left (fun msg job =>
        msg ++ nl ++ "ID: " ++ Js.String_ (job_id job) ++ ", Aktiv: " ++
        Js.String_bool (job_enable job) ++ ", Cron: " ++ job_timespec job)
        (j :: jobs) ""
  | _ => "No schedules found."
  end.

(** Lines 389-391. *)
Definition noChargingMessage (cfg : config) (g : globals) : string :=
  "No charging required." ++ nl ++ nl ++
  "Temperature forecast: " ++ Js.toFixed2 (lastAvgTemp g) ++ "°C" ++ nl ++
  "switch-on threshold: " ++ Js.toFixed2 (START_TEMP cfg) ++ "°C".

(** Lines 409-418. *)
Definition newPlanMessage (cfg : config) (g : globals) (start : Js.num) : string :=
  let dynamicStartTimeStr := secondsToTime start in
  let durationMinutes := Js.toFixed2 (inject_Z (nextChargingDurationSeconds g) / 60)%Q in
  let durationHours := Js.toFixed2 (inject_Z (nextChargingDurationSeconds g) / 3600)%Q in
  "New loading plan created." ++ nl ++ nl ++
  "Temperature forecast: " ++ Js.toFixed2 (lastAvgTemp g) ++ "°C" ++ nl ++
  "charging time: " ++ durationHours ++ " Std (" ++ durationMinutes ++ " Min)" ++ nl ++
  "start time: " ++ dynamicStartTimeStr ++ nl ++
  "end time: " ++ CHARGING_WINDOW_END cfg.

(** Lines 403-405. *)
Definition cronExpr (start : Js.num) : string :=
  let h_cron := option_map (fun s => s / 3600) start in
  let m_cron := option_map (fun s => Js.rem s 3600 / 60) start in
  "0 " ++ Js.String_num m_cron ++ " " ++ Js.String_num h_cron ++ " * * *".

(** The [Schedule.Create] callbacks are listed after the requests of the
    [forEach] loop, in the order of the switches. *)
Definition scheduleCharging (cfg : config) (h : host) (g : globals) : list call :=
  if IS_TEST_MODE cfg then []
  else
    Schedule_List ::
    if negb (list_err h =? 0)
    then notify cfg "ERROR: Failed to list schedules. Aborting."
    else
      ((if SEND_TELEGRAM_SCHEDULE_LIST cfg then notify cfg (scheduleListMsg h) else []) ++
       Schedule_DeleteAll None ::
       if negb (delete_err h =? 0)
       then notify cfg "ERROR: Failed to delete schedules. Aborting."
       else if nextChargingDurationSeconds g <=? 0
       then (if SEND_TELEGRAM_NEW_SCHEDULE cfg then notify cfg (noChargingMessage cfg g) else [])
       else
         let windowEndSeconds := timeToSeconds (CHARGING_WINDOW_END cfg) in
         let start := dynamicStartSeconds windowEndSeconds (nextChargingDurationSeconds g) in
         (map (fun switchId =>
            Schedule_Create None (cronExpr start) switchId (nextChargingDurationSeconds g))
            (SWITCH_IDS cfg) ++
          flat_map (fun switchId =>
            if create_err h switchId =? 0
            then (if SEND_TELEGRAM_NEW_SCHEDULE cfg
                  then notify cfg (newPlanMessage cfg g start) else [])
            else notify cfg ("ERROR: Failed to create schedule for Switch " ++ Js.String_ switchId))
            (SWITCH_IDS cfg)))%list.

Definition calculateChargingDuration (cfg : config) (h : host) (avgTemp : Q) (g : globals)
  : globals * list call :=
  let g := set_lastAvgTemp g avgTemp in
  let hours := chargingHours cfg avgTemp in
  let g := set_nextChargingDurationSeconds g (Js.Math_round (hours * 3600)%Q) in
  (g, scheduleCharging cfg h g).

Definition calculateFallbackDuration (cfg : config) (h : host) (g : globals)
  : globals * list call :=
  let hours := fallbackHours cfg (fallbackMonth h) in
  let g := set_nextChargingDurationSeconds g (Js.Math_round (hours * 3600)%Q) in
  (g, Sys_GetStatus :: scheduleCharging cfg h g).

Definition getWeatherAndCalculateDuration (cfg : config) (h : host) (g : globals)
  : globals * list call :=
  let failed (msg : string) :=
    let '(g, calls) := calculateFallbackDuration cfg h g in
    (g, (notify cfg msg ++ calls)%list) in
  let '(g, calls) :=
    match forecast_res h with
    | Some res =>
        if negb (forecast_err h =? 0) || negb (code res =? 200)
        then failed ("Weather API unreachable. Code: " ++ Js.String_ (forecast_err h))
        else
          match body res with
          | Hourly temperature_2m =>
              let temps := slice_24_48 temperature_2m in
              if (List.length temps <? 24)%nat
              then failed ("Failed to parse weather data. Error: " ++ "Incomplete data")
              else calculateChargingDuration cfg h (average temps) g
          | Throws message => failed ("Failed to parse weather data. Error: " ++ message)
          end
    | None => failed ("Weather API unreachable. Code: " ++ Js.String_ (forecast_err h))
    end in
  (g, HTTP_GET (weatherUrl cfg) :: calls).

(** A tick of the production timer: the answer to the [Sys.GetStatus] of
    [dailyCheck] and the host answers for a cycle started from it. *)
Record tick := { result : option sysStatus; cycleHost : host }.

(** [result.time] when [!result || !result.time] is false. *)
Definition currentTime (result : option sysStatus) : option string :=
  match result with
  | Some r =>
      match time r with
      | Some t => if String.eqb t "" then None else Some t
      | None => None
      end
  | None => None
  end.

(** Lines 451-456: the trigger. *)
Definition trigger (cfg : config) (h : host) (t : string) (g : globals)
  : globals * list call :=
  if String.eqb t (DATA_FETCH_TIME cfg) && negb (hasRunToday g)
  then
    let '(g, calls) := getWeatherAndCalculateDuration cfg h g in
    (set_hasRunToday g true,
     (notify cfg "Starte die Erstellung des Ladeplans für morgen." ++ calls)%list)
  else (g, []).

(** Lines 459-464: the reset shortly after midnight. *)
Definition reset (t : string) (g : globals) : globals :=
  if String.eqb t "00:01"
  then if hasRunToday g then set_hasRunToday g false else g
  else g.

Definition dailyCheck (cfg : config) (tk : tick) (g : globals) : globals * list call :=
  match currentTime (result tk) with
  | Some t =>
      let '(g, calls) := trigger cfg (cycleHost tk) t g in
      (reset t g, Sys_GetStatus :: calls)
  | None => (g, [Sys_GetStatus])
  end.

(** [dailyCheck] run once per tick (the call at start-up of line 488, then
    the firings of the repeating timer of line 483), each from the globals
    left by the previous one. *)
Fixpoint runTicks (cfg : config) (ticks : list tick) (g : globals) : globals * list call :=
  match ticks with
  | [] => (g, [])
  | tk :: ticks =>
      let '(g, calls) := dailyCheck cfg tk g in
      let '(g, rest) := runTicks cfg ticks g in
      (g, (calls ++ rest)%list)
  end.

End V50.

(** The [CONFIG] literal of lines 236-269, with the settings that the
    examples below vary taken as arguments. *)
Definition configWith (switches : list Z) (token chat : string) (testMode : bool)
    (fetchTime : string) : config := {|
  SWITCH_IDS := switches;
  CHARGING_WINDOW_START := "22:00";
  CHARGING_WINDOW_END := "06:00";
  LATITUDE := "52.2768";
  LONGITUDE := "7.719";
  START_TEMP := 15;
  SLOPE := 1 # 2;
  MAX_RUNTIME_HOURS := 8;
  FALLBACK_HOURS_Q1 := 6;
  FALLBACK_HOURS_Q2 := 2;
  FALLBACK_HOURS_Q3 := 0;
  FALLBACK_HOURS_Q4 := 5;
  TELEGRAM_BOT_TOKEN := token;
  TELEGRAM_CHAT_ID := chat;
  SEND_TELEGRAM_SCHEDULE_LIST := false;
  SEND_TELEGRAM_NEW_SCHEDULE := false;
  IS_TEST_MODE := testMode;
  TEST_INTERVAL_MINUTES := 5;
  TIMEZONE := "Europe/Berlin";
  DATA_FETCH_TIME := fetchTime
|}.

(** [CONFIG] as version 5.0 ships it (production mode, no Telegram
    credentials). *)
Definition CONFIG : config := configWith [0] "" "" false "19:00".

(** [CONFIG] as version 4.2 ships it (lines 14-44): the same values with
    [IS_TEST_MODE: true]; version 4.2 has no [SEND_TELEGRAM_...] switches and
    never reads them. *)
Definition CONFIG_4_2 : config := configWith [0] "" "" true "19:00".

(** Version 4.2 switched to production mode. *)
Definition CONFIG_4_2_production : config := configWith [0] "" "" false "19:00".

(** A host on which every call succeeds; the forecast holds [temps]. *)
Definition hostWith (temps : list Q) : host := {|
  forecast_err := 0;
  forecast_res := Some {| code := 200; body := Hourly temps |};
  status := Some {| time := Some "19:00"; unixtime := 1700000000 |};
  getMonth := fun _ => 10;
  list_err := 0;
  list_jobs := Some [];
  delete_err := 0;
  create_err := fun _ => 0
|}.

(** A host whose forecast request fails and whose schedule calls answer with
    the given error codes. *)
Definition hostAnswering (listErr deleteErr : Z) (createErr : Z -> Z) : host := {|
  forecast_err := -1;
  forecast_res := None;
  status := Some {| time := Some "19:00"; unixtime := 1700000000 |};
  getMonth := fun _ => 10;
  list_err := listErr;
  list_jobs := Some [];
  delete_err := deleteErr;
  create_err := createErr
|}.

(** The shipped [CONFIG] of version 5.0 with the charging window set to
    23:00-05:00. *)
Definition CONFIG_23_05 : config := {|
  SWITCH_IDS := [0];
  CHARGING_WINDOW_START := "23:00";
  CHARGING_WINDOW_END := "05:00";
  LATITUDE := "52.2768";
  LONGITUDE := "7.719";
  START_TEMP := 15;
  SLOPE := 1 # 2;
  MAX_RUNTIME_HOURS := 8;
  FALLBACK_HOURS_Q1 := 6;
  FALLBACK_HOURS_Q2 := 2;
  FALLBACK_HOURS_Q3 := 0;
  FALLBACK_HOURS_Q4 := 5;
  TELEGRAM_BOT_TOKEN := "";
  TELEGRAM_CHAT_ID := "";
  SEND_TELEGRAM_SCHEDULE_LIST := false;
  SEND_TELEGRAM_NEW_SCHEDULE := false;
  IS_TEST_MODE := false;
  TEST_INTERVAL_MINUTES := 5;
  TIMEZONE := "Europe/Berlin";
  DATA_FETCH_TIME := "19:00"
|}.

(** A host whose forecast request fails, whose schedule calls succeed and
    whose calendar is in the month with the given index (0 is January). *)
Definition hostInMonth (monthIndex : Z) : host := {|
  forecast_err := -1;
  forecast_res := None;
  status := Some {| time := Some "19:00"; unixtime := 1700000000 |};
  getMonth := fun _ => monthIndex;
  list_err := 0;
  list_jobs := Some [];
  delete_err := 0;
  create_err := fun _ => 0
|}.

(** Classification of the calls that touch the device's stored schedules. *)
Definition isCreate (c : call) : bool :=
  match c with
  | Schedule_Create _ _ _ _ => true
  | _ => false
  end.

Definition isScheduleCall (c : call) : bool :=
  match c with
  | Schedule_List | Schedule_DeleteAll _ | Schedule_Create _ _ _ _ => true
  | _ => false
  end.

(** Modelled from the spec: the host's timed-action store (section 6:
    List, DeleteAll, Create), which is firmware and not part of the script.
    A stored action is a time specification, a switch and an on-duration;
    DeleteAll empties the store, Create adds one action, every other call
    leaves it as it is. *)
Definition deviceStep (store : list (string * Z * Z)) (c : call) : list (string * Z * Z) :=
  match c with
  | Schedule_DeleteAll _ => []
  | Schedule_Create _ timespec switchId toggle_after =>
      (store ++ [(timespec, switchId, toggle_after)])%list
  | _ => store
  end.

Definition device (calls : list call) (store : list (string * Z * Z)) : list (string * Z * Z) :=
  fold_left deviceStep calls store.

(** ** Vocabulary of the properties *)

(** The window span in the words of the specification. *)
Definition span (windowStart windowEnd : Z) : Z :=
  if windowEnd <? windowStart then (86400 - windowStart) + windowEnd
  else windowEnd - windowStart.

Definition inDay (t : Z) : Prop := 0 <= t < 86400.

(** The quarterly constant in the words of the specification. *)
Definition quarterConstant (cfg : config) (quarter : Z) : Q :=
  match quarter with
  | 1 => FALLBACK_HOURS_Q1 cfg
  | 2 => FALLBACK_HOURS_Q2 cfg
  | 3 => FALLBACK_HOURS_Q3 cfg
  | _ => FALLBACK_HOURS_Q4 cfg
  end.

Fixpoint occurs (c : ascii) (s : string) : bool :=
  match s with
  | EmptyString => false
  | String a s' => Ascii.eqb a c || occurs c s'
  end.


(** The failures of the forecast request in the words of the specification:
    a network error code, no result, or a status other than 200. *)
Definition transportFailure (h : host) : Prop :=
  forecast_err h <> 0 \/
  forecast_res h = None \/
  exists res, forecast_res h = Some res /\ code res <> 200.

(** A body that arrived but cannot be used: parsing raised [message], or
    the series has fewer than 24 samples at the offsets 24-47. *)
Definition malformedBody (h : host) (message : string) : Prop :=
  forecast_err h = 0 /\
  exists res,
    forecast_res h = Some res /\ code res = 200 /\
    (body res = Throws message \/
     exists temps,
       body res = Hourly temps /\ (List.length temps < 48)%nat /\
       message = "Incomplete data").

Definition fallbackSeconds (cfg : config) (h : host) : Z :=
  Js.Math_round (fallbackHours cfg (fallbackMonth h) * 3600)%Q.

Definition isForecastRequest (cfg : config) (c : call) : bool :=
  match c with
  | HTTP_GET url => String.eqb url (weatherUrl cfg)
  | _ => false
  end.

(** The decision cycles among a list of calls: a cycle is a run of
    [getWeatherAndCalculateDuration], which starts with the forecast request
    and issues it once. *)
Definition cycles (cfg : config) (calls : list call) : nat :=
  List.length (filter (isForecastRequest cfg) calls).

(** The trigger seen as a machine on [hasRunToday] alone: the flag after a
    tick that reads the time [t], and the number of cycles it started. *)
Definition stepFlag (fetchTime : string) (flag : bool) (t : string) : bool * nat :=
  let ran := String.eqb t fetchTime && negb flag in
  (if String.eqb t "00:01" then false else flag || ran, if ran then 1%nat else 0%nat).

Fixpoint runFlags (fetchTime : string) (flag : bool) (ts : list string) : bool * nat :=
  match ts with
  | [] => (flag, 0%nat)
  | t :: ts =>
      let '(flag, n) := stepFlag fetchTime flag t in
      let '(flag, m) := runFlags fetchTime flag ts in
      (flag, (n + m)%nat)
  end.

(** The times that the ticks of a list read, in order; a tick without a
    usable status reads none. *)
Definition times (ticks : list V50.tick) : list string :=
  flat_map (fun tk => match V50.currentTime (V50.result tk) with
                      | Some t => [t]
                      | None => []
                      end) ticks.

(** Modelled from the spec: the host reports its local time of day as
    ["HH:MM"] (section 4.4), which is firmware and not part of the script;
    [clock minute] is that text for a minute of the day, in the format
    [secondsToTime] prints. *)
Definition clock (minute : Z) : string := secondsToTime (Some (60 * minute)).

Definition minuteOfDay (minute : Z) : Prop := 0 <= minute < 1440.

(** The ticks of one calendar day read the clock at minutes that do not
    decrease ([R] is [Z.le]; several ticks may fall into one minute) or that
    increase ([R] is [Z.lt]; at most one tick per minute). *)
Definition calendarDay (R : Z -> Z -> Prop) (day : list V50.tick) : Prop :=
  exists minutes,
    times day = map clock minutes /\
    Forall minuteOfDay minutes /\
    StronglySorted R minutes.

Definition tickAt (t : string) (h : host) : V50.tick :=
  {| V50.result := Some {| time := Some t; unixtime := 1700000000 |}; V50.cycleHost := h |}.

(** ** Start-up of version 5.0 (lines 469-490) *)

Module Startup.

(** What start-up issues: [Shelly.call] requests and the [Timer.set] of the
    repeating timer. *)
Inductive action :=
| Issued (c : call)
| Timer_set (ms : Z) (repeat : bool).

(** The firings of the test-mode timer, each a run of
    [getWeatherAndCalculateDuration] from the globals left by the one
    before. *)
Fixpoint runCycles (cfg : config) (firings : list host) (g : globals) : globals * list call :=
  match firings with
  | [] => (g, [])
  | h :: firings =>
      let '(g, calls) := V50.getWeatherAndCalculateDuration cfg h g in
      let '(g, rest) := runCycles cfg firings g in
      (g, (calls ++ rest)%list)
  end.

(** [startup] answers the calls made while the script starts, [firings] the
    later firings of the repeating timer. *)
Definition initializeTimers (cfg : config) (startup : V50.tick) (firings : list V50.tick)
  : globals * list action :=
  if IS_TEST_MODE cfg
  then
    let '(g, first) :=
      V50.getWeatherAndCalculateDuration cfg (V50.cycleHost startup) initialGlobals in
    let '(g, rest) := runCycles cfg (map V50.cycleHost firings) g in
    (g,
     (map Issued (V50.notify cfg "Test-Modus aktiviert.") ++
      map Issued first ++
      Timer_set (TEST_INTERVAL_MINUTES cfg * 60 * 1000) true ::
      map Issued rest)%list)
  else
    let '(g, first) := V50.dailyCheck cfg startup initialGlobals in
    let '(g, rest) := V50.runTicks cfg firings g in
    (g,
     (map Issued (V50.notify cfg ("Heizungs-Skript gestartet. Tägliche Prüfung um " ++
                                  DATA_FETCH_TIME cfg ++ " ist aktiv.")) ++
      Timer_set 60000 true ::
      map Issued first ++ map Issued rest)%list).

(** The [Shelly.call] requests among the actions. *)
Definition issued (actions : list action) : list call :=
  flat_map (fun a => match a with
                     | Issued c => [c]
                     | Timer_set _ _ => []
                     end) actions.

End Startup.

(** ** Further vocabulary *)

Definition hexValue (a : ascii) : option N :=
  let n := N_of_ascii a in
  if ((48 <=? n) && (n <=? 57))%N then Some (n - 48)%N
  else if ((65 <=? n) && (n <=? 70))%N then Some (n - 55)%N
  else if ((97 <=? n) && (n <=? 102))%N then Some (n - 87)%N
  else None.

(** Percent-decoding as the receiver of a URL does it: [%XY] with two
    hexadecimal digits is the byte [XY], every other character stands for
    itself. *)
Fixpoint urlDecode (s : string) : string :=
  match s with
  | EmptyString => EmptyString
  | String c s' =>
      if Ascii.eqb c "%"
      then match s' with
           | String a (String b rest) =>
               match hexValue a, hexValue b with
               | Some x, Some y => String (ascii_of_N (16 * x + y)) (urlDecode rest)
               | _, _ => String c (urlDecode s')
               end
           | _ => String c (urlDecode s')
           end
      else String c (urlDecode s')
  end.

(** The hour and the minute at which a six-field time specification
    ["0 M H * * *"] fires. *)
Definition cronHourMinute (timespec : string) : option (Z * Z) :=
  match Js.split " " timespec with
  | [second; minute; hour; "*"; "*"; "*"] =>
      if String.eqb second "0"
      then match Js.parseInt hour, Js.parseInt minute with
           | Some h, Some m => Some (h, m)
           | _, _ => None
           end
      else None
  | _ => None
  end.

(** The time specification of version 4.2 (line 189), from the text of the
    start time. *)
Definition cronExpr_4_2 (dynamicStartTimeStr : string) : string :=
  let parts := Js.split ":" dynamicStartTimeStr in
  "0 " ++ nth 1 parts "undefined" ++ " " ++ nth 0 parts "undefined" ++ " * * *".

(** The window test of lines 165-168 on seconds of the day. *)
Definition insideWindow (windowStart windowEnd t : Z) : Prop :=
  if windowEnd <? windowStart
  then windowStart <= t \/ t < windowEnd
  else windowStart <= t < windowEnd.

(** The minutes of a complete day, one tick each. *)
Definition fullDay : list Z := map Z.of_nat (seq 0 1440).

(** [stepFlag] and [runFlags] on minutes of the day instead of clock
    texts. *)
Definition stepMinute (fetchMinute : Z) (flag : bool) (minute : Z) : bool * nat :=
  let ran := (minute =? fetchMinute) && negb flag in
  (if minute =? 1 then false else flag || ran, if ran then 1%nat else 0%nat).

Fixpoint runMinutes (fetchMinute : Z) (flag : bool) (minutes : list Z) : bool * nat :=
  match minutes with
  | [] => (flag, 0%nat)
  | m :: minutes =>
      let '(flag, n) := stepMinute fetchMinute flag m in
      let '(flag, k) := runMinutes fetchMinute flag minutes in
      (flag, (n + k)%nat)
  end.

(** * Properties *)

(** ** Arithmetic of the backward scheduler *)

Lemma rem_is_mod (a : Z) : 0 <= a -> Js.rem a 86400 = a mod 86400.
Proof. intros Ha. unfold Js.rem. apply Z.rem_mod_nonneg; lia. Qed.

Ltac bool_to_Z :=
  repeat match goal with
    | |- context [?a >? ?b] => rewrite (Z.gtb_ltb a b)
    | |- context [?a >=? ?b] => rewrite (Z.geb_leb a b)
    end;
  repeat match goal with
    | |- context [?a <? ?b] => destruct (Z.ltb_spec a b)
    | |- context [?a <=? ?b] => destruct (Z.leb_spec a b)
    end.

(** [backwardSchedule] on a window whose two times parse. *)
Lemma backwardSchedule_parsed (cfg : config) (ws we required : Z) :
  timeToSeconds (CHARGING_WINDOW_START cfg) = Some ws ->
  timeToSeconds (CHARGING_WINDOW_END cfg) = Some we ->
  V42.backwardSchedule cfg required =
    let w := span ws we in
    let d := if w <? required then w else required in
    let s := Js.rem (we - d + 86400) 86400 in
    let inWindow := if we <? ws then (ws <=? s) || (s <? we) else (ws <=? s) && (s <? we) in
    if negb inWindow && (0 <? w) then (w, Some ws) else (d, Some s).
Proof.
  intros Hs He. unfold V42.backwardSchedule, V42.windowDurationSeconds, span.
  rewrite Hs, He. cbn [Js.gtb Js.cmp Js.add Js.sub Js.lift2 Js.geb Js.ltb dynamicStartSeconds option_map].
  rewrite !Z.gtb_ltb, !Z.geb_leb.
  destruct (we <? ws); cbn [Js.cmp]; rewrite ?Z.gtb_ltb, ?Z.geb_leb; reflexivity.
Qed.

(** A required duration that is positive and fits the window is kept, and the
    start is the window end minus that duration. *)
Lemma backwardSchedule_fits (cfg : config) (ws we required : Z) :
  timeToSeconds (CHARGING_WINDOW_START cfg) = Some ws ->
  timeToSeconds (CHARGING_WINDOW_END cfg) = Some we ->
  inDay ws -> inDay we ->
  0 < required <= span ws we ->
  V42.backwardSchedule cfg required = (required, Some ((we - required + 86400) mod 86400)).
Proof.
  unfold inDay. intros Hs He Hws Hwe Hd.
  rewrite (backwardSchedule_parsed cfg ws we required Hs He). cbv zeta.
  destruct (Z.ltb_spec (span ws we) required) as [Hlt | _]; [lia |].
  rewrite rem_is_mod by (unfold span in Hd; destruct (we <? ws); lia).
  set (s := (we - required + 86400) mod 86400).
  assert (Hs' : required <= we /\ s = we - required \/
                we < required /\ s = we - required + 86400).
  { unfold s. destruct (Z_le_gt_dec required we).
    - left. split; [assumption |]. rewrite <- (Z.add_mod_idemp_r _ 86400), Z.mod_same, Z.add_0_r by lia.
      apply Z.mod_small. lia.
    - right. split; [lia |]. apply Z.mod_small. unfold span in Hd. destruct (we <? ws); lia. }
  unfold span in *.
  destruct (Z.ltb_spec we ws); bool_to_Z; cbn [negb andb orb];
    first [reflexivity | exfalso; lia].
Qed.

(** Whenever the span is positive, a required duration of zero is turned into
    a charge over the whole window. *)
Lemma backwardSchedule_zero (cfg : config) (ws we : Z) :
  timeToSeconds (CHARGING_WINDOW_START cfg) = Some ws ->
  timeToSeconds (CHARGING_WINDOW_END cfg) = Some we ->
  inDay ws -> inDay we ->
  0 < span ws we ->
  V42.backwardSchedule cfg 0 = (span ws we, Some ws).
Proof.
  unfold inDay. intros Hs He Hws Hwe Hpos.
  rewrite (backwardSchedule_parsed cfg ws we 0 Hs He). cbv zeta.
  destruct (Z.ltb_spec (span ws we) 0) as [Hlt | _]; [lia |].
  rewrite rem_is_mod by lia.
  replace ((we - 0 + 86400) mod 86400) with we
    by (rewrite Z.sub_0_r, <- (Z.add_mod_idemp_r _ 86400), Z.mod_same, Z.add_0_r by lia;
        symmetry; apply Z.mod_small; lia).
  unfold span in *.
  destruct (Z.ltb_spec we ws); bool_to_Z; cbn [negb andb orb];
    first [reflexivity | exfalso; lia].
Qed.

(** The start that [backwardSchedule] returns is always the window end minus
    the duration it returns, modulo one day. *)
Lemma backwardSchedule_anchored (cfg : config) (ws we required : Z) :
  timeToSeconds (CHARGING_WINDOW_START cfg) = Some ws ->
  timeToSeconds (CHARGING_WINDOW_END cfg) = Some we ->
  inDay ws -> inDay we ->
  snd (V42.backwardSchedule cfg required) =
    Some ((we - fst (V42.backwardSchedule cfg required) + 86400) mod 86400).
Proof.
  unfold inDay. intros Hs He Hws Hwe.
  rewrite (backwardSchedule_parsed cfg ws we required Hs He). cbv zeta.
  set (w := span ws we).
  assert (Hw : w <= we + 86400 /\ (we - w + 86400) mod 86400 = ws).
  { unfold w, span. destruct (Z.ltb_spec we ws).
    - split; [lia |]. replace (we - (86400 - ws + we) + 86400) with ws by lia.
      apply Z.mod_small; lia.
    - split; [lia |]. replace (we - (we - ws) + 86400) with (ws + 86400) by lia.
      rewrite <- (Z.add_mod_idemp_r _ 86400), Z.mod_same, Z.add_0_r by lia.
      apply Z.mod_small; lia. }
  destruct Hw as [Hle Hmod].
  set (d := if w <? required then w else required).
  assert (Hd : d <= w) by (unfold d; destruct (Z.ltb_spec w required); lia).
  match goal with |- context [if ?b then _ else _] => destruct b end; cbn [fst snd].
  - now rewrite Hmod.
  - rewrite rem_is_mod by lia. reflexivity.
Qed.

(** When the required duration exceeds the span, the final duration is the
    span and the start is the window start. *)
Lemma backwardSchedule_exceeds (cfg : config) (ws we required : Z) :
  timeToSeconds (CHARGING_WINDOW_START cfg) = Some ws ->
  timeToSeconds (CHARGING_WINDOW_END cfg) = Some we ->
  span ws we < required ->
  fst (V42.backwardSchedule cfg required) = span ws we.
Proof.
  intros Hs He Hd.
  rewrite (backwardSchedule_parsed cfg ws we required Hs He). cbv zeta.
  destruct (Z.ltb_spec (span ws we) required) as [_ | Hge]; [| lia].
  match goal with |- context [if ?b then _ else _] => destruct b end; reflexivity.
Qed.

(** [scheduleCharging] of version 4.2 leaves the final duration in
    [nextChargingDurationSeconds]. *)
Lemma V42_scheduleCharging_globals (cfg : config) (h : host) (g : globals) :
  fst (V42.scheduleCharging cfg h g) =
    set_nextChargingDurationSeconds g
      (fst (V42.backwardSchedule cfg (nextChargingDurationSeconds g))).
Proof.
  unfold V42.scheduleCharging.
  destruct (V42.backwardSchedule cfg (nextChargingDurationSeconds g)) as [d st].
  now destruct (IS_TEST_MODE cfg).
Qed.

(** The requests of version 4.2 in production mode with the shipped window,
    switch list and (empty) Telegram settings, for a positive final
    duration. *)
Lemma V42_scheduleCharging_shipped (h : host) (g : globals) (d : Z) (start : Js.num) :
  V42.backwardSchedule CONFIG_4_2_production (nextChargingDurationSeconds g) = (d, start) ->
  0 < d ->
  snd (V42.scheduleCharging CONFIG_4_2_production h g) =
    [Schedule_DeleteAll (Some 0);
     Schedule_Create (Some 0)
       ("0 " ++ nth 1 (Js.split ":" (secondsToTime start)) "undefined" ++ " " ++
        nth 0 (Js.split ":" (secondsToTime start)) "undefined" ++ " * * *") 0 d].
Proof.
  intros Hplan Hd. unfold V42.scheduleCharging. rewrite Hplan.
  change (IS_TEST_MODE CONFIG_4_2_production) with false.
  change (SWITCH_IDS CONFIG_4_2_production) with [0].
  cbv iota. cbn [snd flat_map app].
  assert (Hpos : (d >? 0) = true) by (apply Z.gtb_lt; lia).
  rewrite Hpos.
  change (V42.notify CONFIG_4_2_production _) with (@nil call).
  destruct (create_err h 0 =? 0); reflexivity.
Qed.

(** C1 (the code departs from the claim).  Version 4.2, window 22:00-06:00,
    required duration 0: [backwardSchedule] returns the whole window (28800
    seconds from 22:00) instead of duration 0, and in production mode
    [scheduleCharging] asks for a timed action on switch 0.  A forecast of
    20 degrees for every hour of tomorrow, which needs no charge, leads
    there. *)
Theorem C1_v42_zero_duration_charges_whole_window :
  V42.backwardSchedule CONFIG_4_2 0 = (28800, Some 79200) /\
  (forall (h : host) (g : globals),
      V42.scheduleCharging CONFIG_4_2_production h (set_nextChargingDurationSeconds g 0) =
      (set_nextChargingDurationSeconds g 28800,
       [Schedule_DeleteAll (Some 0); Schedule_Create (Some 0) "0 00 22 * * *" 0 28800])) /\
  chargingHours CONFIG_4_2_production 20 = 0%Q /\
  snd (V42.getWeatherAndCalculateDuration CONFIG_4_2_production (hostWith (repeat 20%Q 48))
         initialGlobals) =
    [HTTP_GET (weatherUrl CONFIG_4_2_production);
     Schedule_DeleteAll (Some 0); Schedule_Create (Some 0) "0 00 22 * * *" 0 28800].
Proof.
  split; [reflexivity |]. split; [| split; reflexivity]. intros h g.
  rewrite (surjective_pairing (V42.scheduleCharging _ _ _)). f_equal.
  apply (V42_scheduleCharging_shipped h _ 28800 (Some 79200)); [reflexivity | lia].
Qed.

(** Version 5.0 does what C1 asks: with a duration of zero (or less) no
    [Schedule.Create] is issued. *)
Lemma V50_zero_duration_creates_nothing (cfg : config) (h : host) (g : globals) :
  nextChargingDurationSeconds g <= 0 ->
  filter isCreate (V50.scheduleCharging cfg h g) = [].
Proof.
  intros Hd. unfold V50.scheduleCharging, V50.notify, sendTelegramNotification.
  destruct (Z.leb_spec (nextChargingDurationSeconds g) 0) as [_ | Hgt]; [| lia].
  repeat match goal with
    | |- context [if ?b then _ else _] => destruct b
    end; reflexivity.
Qed.

(** In the backward scheduler of version 4.2, a required duration above the
    window span (span = (86400 - start) + end for a wrapping window,
    end - start otherwise) is clamped to the span, and the start is then the
    window start; for 22:00-06:00 and 10 hours the result is 8 hours from
    22:00. *)
Theorem V42_required_duration_clamped_to_span :
  (forall (cfg : config) (ws we required : Z),
      timeToSeconds (CHARGING_WINDOW_START cfg) = Some ws ->
      timeToSeconds (CHARGING_WINDOW_END cfg) = Some we ->
      span ws we < required ->
      fst (V42.backwardSchedule cfg required) = span ws we /\
      (forall (h : host) (g : globals),
          nextChargingDurationSeconds
            (fst (V42.scheduleCharging cfg h (set_nextChargingDurationSeconds g required))) =
          span ws we) /\
      (inDay ws -> inDay we -> snd (V42.backwardSchedule cfg required) = Some ws)) /\
  V42.backwardSchedule CONFIG_4_2 (10 * 3600) = (8 * 3600, timeToSeconds "22:00") /\
  secondsToTime (timeToSeconds "22:00") = "22:00" /\
  (forall (h : host) (g : globals),
      snd (V42.scheduleCharging CONFIG_4_2_production h
             (set_nextChargingDurationSeconds g (10 * 3600))) =
      [Schedule_DeleteAll (Some 0);
       Schedule_Create (Some 0) "0 00 22 * * *" 0 (8 * 3600)]).
Proof.
  split; [| split; [reflexivity | split; [reflexivity |]]].
  - intros cfg ws we required Hs He Hd.
    pose proof (backwardSchedule_exceeds cfg ws we required Hs He Hd) as Hfst.
    split; [exact Hfst |]. split.
    + intros h g. rewrite V42_scheduleCharging_globals. destruct g. exact Hfst.
    + intros Hws Hwe.
      rewrite (backwardSchedule_anchored cfg ws we required Hs He Hws Hwe), Hfst.
      f_equal. unfold inDay, span in *. destruct (Z.ltb_spec we ws).
      * replace (we - (86400 - ws + we) + 86400) with ws by lia. apply Z.mod_small; lia.
      * replace (we - (we - ws) + 86400) with (ws + 86400) by lia.
        rewrite <- (Z.add_mod_idemp_r _ 86400), Z.mod_same, Z.add_0_r by lia.
        apply Z.mod_small; lia.
  - intros h g.
    apply (V42_scheduleCharging_shipped h _ 28800 (Some 79200)); [reflexivity | lia].
Qed.

Lemma V42_required_duration_clamped_to_span_witness :
  timeToSeconds (CHARGING_WINDOW_START CONFIG_4_2) = Some 79200 /\
  timeToSeconds (CHARGING_WINDOW_END CONFIG_4_2) = Some 21600 /\
  span 79200 21600 < 36000 /\
  fst (V42.backwardSchedule CONFIG_4_2 36000) = span 79200 21600 /\
  (forall (h : host) (g : globals),
      nextChargingDurationSeconds
        (fst (V42.scheduleCharging CONFIG_4_2 h (set_nextChargingDurationSeconds g 36000))) =
      span 79200 21600) /\
  (inDay 79200 -> inDay 21600 ->
   snd (V42.backwardSchedule CONFIG_4_2 36000) = Some 79200).
Proof.
  split; [reflexivity |]. split; [reflexivity |]. split; [reflexivity |].
  apply (proj1 V42_required_duration_clamped_to_span CONFIG_4_2 79200 21600 36000);
    reflexivity.
Defined.

(** C2 (the code departs from the claim).  Version 5.0 has no window span
    and no clamp; it never reads [CHARGING_WINDOW_START].  With the shipped
    heating curve, the window 23:00-05:00 (span 21600 seconds) and a forecast
    of -5 degrees for every hour, the cycle stores 28800 seconds and asks for
    8 hours from 21:00, two hours before the window opens; with the shipped
    window 22:00-06:00 and a duration of 10 hours it asks for 10 hours from
    20:00.  Version 4.2 returns the span and the window start on both. *)
Theorem C2_v50_duration_not_clamped :
  timeToSeconds (CHARGING_WINDOW_START CONFIG_23_05) = Some 82800 /\
  timeToSeconds (CHARGING_WINDOW_END CONFIG_23_05) = Some 18000 /\
  span 82800 18000 = 21600 /\
  nextChargingDurationSeconds
    (fst (V50.getWeatherAndCalculateDuration CONFIG_23_05 (hostWith (repeat (-5)%Q 48))
            initialGlobals)) = 28800 /\
  snd (V50.getWeatherAndCalculateDuration CONFIG_23_05 (hostWith (repeat (-5)%Q 48))
         initialGlobals) =
    [HTTP_GET (weatherUrl CONFIG_23_05); Schedule_List; Schedule_DeleteAll None;
     Schedule_Create None "0 0 21 * * *" 0 28800] /\
  V42.backwardSchedule CONFIG_23_05 28800 = (21600, Some 82800) /\
  (forall g : globals,
      V50.scheduleCharging CONFIG (hostAnswering 0 0 (fun _ => 0))
        (set_nextChargingDurationSeconds g (10 * 3600)) =
      [Schedule_List; Schedule_DeleteAll None;
       Schedule_Create None "0 0 20 * * *" 0 (10 * 3600)]) /\
  V42.backwardSchedule CONFIG (10 * 3600) = (8 * 3600, Some 79200).
Proof.
  repeat (split; [reflexivity |]). reflexivity.
Qed.

(** ** Calls issued by [scheduleCharging] *)

Section Calls.

Variable urlEncode : string -> string.

Lemma notify_isCreate (cfg : config) (message : string) :
  filter isCreate (sendTelegramNotification urlEncode cfg message) = [].
Proof. unfold sendTelegramNotification. destruct (_ || _); reflexivity. Qed.

Lemma notify_isScheduleCall (cfg : config) (message : string) :
  filter isScheduleCall (sendTelegramNotification urlEncode cfg message) = [].
Proof. unfold sendTelegramNotification. destruct (_ || _); reflexivity. Qed.

End Calls.

Lemma filter_flat_map_nil {A B : Type} (p : B -> bool) (f : A -> list B) (l : list A) :
  (forall a, filter p (f a) = []) -> filter p (flat_map f l) = [].
Proof.
  intros Hf. induction l as [| a l IH]; [reflexivity |].
  cbn [flat_map]. now rewrite filter_app, Hf, IH.
Qed.

Lemma filter_map_all {A B : Type} (p : B -> bool) (f : A -> B) (l : list A) :
  (forall a, p (f a) = true) -> filter p (map f l) = map f l.
Proof.
  intros Hf. induction l as [| a l IH]; [reflexivity |].
  cbn [map filter]. now rewrite Hf, IH.
Qed.

Lemma device_no_schedule_call (calls : list call) (store : list (string * Z * Z)) :
  filter isScheduleCall calls = [] -> device calls store = store.
Proof.
  unfold device. revert store. induction calls as [| c calls IH]; intros store Hf; [reflexivity |].
  cbn [filter] in Hf. destruct c; cbn [isScheduleCall] in Hf; try discriminate;
    cbn [fold_left deviceStep]; auto.
Qed.

(** In production mode, once listing and deleting succeeded and the duration
    is positive, version 5.0 asks for exactly one timed action per configured
    switch, whatever the host answers to each request. *)
Lemma V50_scheduleCharging_creates (cfg : config) (h : host) (g : globals) :
  IS_TEST_MODE cfg = false ->
  list_err h = 0 -> delete_err h = 0 ->
  0 < nextChargingDurationSeconds g ->
  filter isCreate (V50.scheduleCharging cfg h g) =
    map (fun switchId =>
           Schedule_Create None
             (V50.cronExpr (dynamicStartSeconds (timeToSeconds (CHARGING_WINDOW_END cfg))
                                                (nextChargingDurationSeconds g)))
             switchId (nextChargingDurationSeconds g))
        (SWITCH_IDS cfg).
Proof.
  intros Hmode Hlist Hdel Hd. unfold V50.scheduleCharging.
  rewrite Hmode, Hlist, Hdel. cbn [Z.eqb negb].
  destruct (Z.leb_spec (nextChargingDurationSeconds g) 0) as [Hle | _]; [lia |].
  cbn [filter isCreate]. rewrite filter_app.
  assert (Hn : filter isCreate
                 (if SEND_TELEGRAM_SCHEDULE_LIST cfg
                  then V50.notify cfg (V50.scheduleListMsg h) else []) = []).
  { destruct (SEND_TELEGRAM_SCHEDULE_LIST cfg); [apply notify_isCreate | reflexivity]. }
  rewrite Hn. cbn [app filter isCreate]. rewrite filter_app.
  rewrite filter_map_all by reflexivity.
  rewrite filter_flat_map_nil; [apply app_nil_r |].
  intros switchId. destruct (create_err h switchId =? 0);
    [destruct (SEND_TELEGRAM_NEW_SCHEDULE cfg); [apply notify_isCreate | reflexivity]
    | apply notify_isCreate].
Qed.

Lemma V50_no_create_unless (cfg : config) (h : host) (g : globals) :
  IS_TEST_MODE cfg = true \/ list_err h <> 0 \/ delete_err h <> 0 \/
  nextChargingDurationSeconds g <= 0 ->
  filter isCreate (V50.scheduleCharging cfg h g) = [].
Proof.
  intros [Hmode | [Hlist | [Hdel | Hd]]].
  - unfold V50.scheduleCharging. now rewrite Hmode.
  - apply Z.eqb_neq in Hlist. unfold V50.scheduleCharging. rewrite Hlist. cbn [negb].
    destruct (IS_TEST_MODE cfg); [reflexivity |]. cbn [filter isCreate].
    apply notify_isCreate.
  - apply Z.eqb_neq in Hdel. unfold V50.scheduleCharging. rewrite Hdel. cbn [negb].
    destruct (IS_TEST_MODE cfg); [reflexivity |]. cbn [filter isCreate].
    destruct (negb (list_err h =? 0)); [apply notify_isCreate |].
    rewrite filter_app. cbn [filter isCreate]. unfold V50.notify at 2.
    rewrite notify_isCreate, app_nil_r.
    destruct (SEND_TELEGRAM_SCHEDULE_LIST cfg); [apply notify_isCreate | reflexivity].
  - now apply V50_zero_duration_creates_nothing.
Qed.

(** Version 4.2 also asks for one timed action per configured switch,
    whatever the host answers; it has no list step and passes no callback to
    [Schedule.DeleteAll], so it cannot react to a failed deletion. *)
Lemma V42_scheduleCharging_creates (cfg : config) (h : host) (g : globals) :
  IS_TEST_MODE cfg = false ->
  0 < fst (V42.backwardSchedule cfg (nextChargingDurationSeconds g)) ->
  exists timespec,
    filter isCreate (snd (V42.scheduleCharging cfg h g)) =
      map (fun id =>
             Schedule_Create (Some id) timespec id
               (fst (V42.backwardSchedule cfg (nextChargingDurationSeconds g))))
          (SWITCH_IDS cfg).
Proof.
  intros Hmode Hd. unfold V42.scheduleCharging.
  destruct (V42.backwardSchedule cfg (nextChargingDurationSeconds g)) as [d st].
  cbn [fst] in Hd. rewrite Hmode. cbn [fst snd].
  assert (Hpos : (d >? 0) = true) by (apply Z.gtb_lt; lia). rewrite Hpos.
  eexists. rewrite filter_app.
  rewrite (filter_flat_map_nil isCreate
             (fun id => if create_err h id =? 0 then []
                        else V42.notify cfg ("Failed to create schedule for Switch " ++
                                             Js.String_ id))).
  - rewrite app_nil_r. induction (SWITCH_IDS cfg) as [| id ids IH]; [reflexivity |].
    cbn [flat_map app filter isCreate map]. now rewrite IH.
  - intros id. destruct (create_err h id =? 0); [reflexivity | apply notify_isCreate].
Qed.

(** Version 5.0 does not clamp: it never reads [CHARGING_WINDOW_START].  With
    the shipped window and a duration of 10 hours it asks for 10 hours from
    20:00. *)
Lemma V50_scheduleCharging_does_not_clamp (g : globals) :
  V50.scheduleCharging CONFIG (hostAnswering 0 0 (fun _ => 0))
    (set_nextChargingDurationSeconds g (10 * 3600)) =
  [Schedule_List; Schedule_DeleteAll None; Schedule_Create None "0 0 20 * * *" 0 (10 * 3600)].
Proof. destruct g. reflexivity. Qed.

(** In the reconciler of version 5.0, a failed [Schedule.List] or
    [Schedule.DeleteAll] ends the cycle without any [Schedule.Create]; when
    both succeed and a charge is due, one [Schedule.Create] is issued per
    configured switch, independently of the answers to the other requests. *)
Theorem V50_reconciler_failure_handling (cfg : config) (h : host) (g : globals) :
  (list_err h <> 0 ->
   filter isCreate (V50.scheduleCharging cfg h g) = [] /\
   (IS_TEST_MODE cfg = false ->
    V50.scheduleCharging cfg h g =
      Schedule_List :: V50.notify cfg "ERROR: Failed to list schedules. Aborting.")) /\
  (delete_err h <> 0 ->
   filter isCreate (V50.scheduleCharging cfg h g) = [] /\
   (IS_TEST_MODE cfg = false -> list_err h = 0 ->
    exists before,
      filter isScheduleCall before = [Schedule_List] /\
      V50.scheduleCharging cfg h g =
        (before ++ Schedule_DeleteAll None ::
           V50.notify cfg "ERROR: Failed to delete schedules. Aborting.")%list)) /\
  (IS_TEST_MODE cfg = false -> list_err h = 0 -> delete_err h = 0 ->
   0 < nextChargingDurationSeconds g ->
   forall answers : Z -> Z,
     let h' := {| forecast_err := forecast_err h; forecast_res := forecast_res h;
                  status := status h; getMonth := getMonth h;
                  list_err := list_err h; list_jobs := list_jobs h;
                  delete_err := delete_err h; create_err := answers |} in
     filter isCreate (V50.scheduleCharging cfg h' g) =
       filter isCreate (V50.scheduleCharging cfg h g) /\
     forall switchId, In switchId (SWITCH_IDS cfg) ->
       exists timespec,
         In (Schedule_Create None timespec switchId (nextChargingDurationSeconds g))
            (V50.scheduleCharging cfg h' g)).
Proof.
  split; [| split].
  - intros Hlist. apply Z.eqb_neq in Hlist. unfold V50.scheduleCharging.
    rewrite Hlist. cbn [negb]. split.
    + destruct (IS_TEST_MODE cfg); [reflexivity |].
      cbn [filter isCreate]. apply notify_isCreate.
    + intros ->. reflexivity.
  - intros Hdel. apply Z.eqb_neq in Hdel. unfold V50.scheduleCharging.
    rewrite Hdel. cbn [negb]. split.
    + destruct (IS_TEST_MODE cfg); [reflexivity |]. cbn [filter isCreate].
      destruct (negb (list_err h =? 0)); [apply notify_isCreate |].
      rewrite filter_app. cbn [filter isCreate]. unfold V50.notify at 2.
      rewrite notify_isCreate, app_nil_r.
      destruct (SEND_TELEGRAM_SCHEDULE_LIST cfg); [apply notify_isCreate | reflexivity].
    + intros -> ->. cbn [Z.eqb negb].
      exists (Schedule_List ::
              if SEND_TELEGRAM_SCHEDULE_LIST cfg
              then V50.notify cfg (V50.scheduleListMsg h) else []).
      split; [| reflexivity]. cbn [filter isScheduleCall]. f_equal.
      destruct (SEND_TELEGRAM_SCHEDULE_LIST cfg); [apply notify_isScheduleCall | reflexivity].
  - intros Hmode Hlist Hdel Hd answers h'.
    rewrite (V50_scheduleCharging_creates cfg h g Hmode Hlist Hdel Hd).
    assert (Hc : filter isCreate (V50.scheduleCharging cfg h' g) =
                 map (fun switchId =>
                        Schedule_Create None
                          (V50.cronExpr
                             (dynamicStartSeconds (timeToSeconds (CHARGING_WINDOW_END cfg))
                                                  (nextChargingDurationSeconds g)))
                          switchId (nextChargingDurationSeconds g))
                     (SWITCH_IDS cfg))
      by (apply V50_scheduleCharging_creates; assumption).
    split; [exact Hc |]. intros switchId Hin. eexists.
    eapply (proj1 (filter_In isCreate _ _)). rewrite Hc.
    apply in_map_iff. exists switchId. split; [reflexivity | exact Hin].
Qed.

Lemma V50_reconciler_failure_handling_witness :
  let cfg := configWith [0; 1] "" "" false "19:00" in
  let g := set_nextChargingDurationSeconds initialGlobals 18000 in
  (list_err (hostAnswering (-1) 0 (fun _ => 0)) <> 0 /\
   filter isCreate (V50.scheduleCharging cfg (hostAnswering (-1) 0 (fun _ => 0)) g) = []) /\
  (delete_err (hostAnswering 0 (-1) (fun _ => 0)) <> 0 /\
   filter isCreate (V50.scheduleCharging cfg (hostAnswering 0 (-1) (fun _ => 0)) g) = []) /\
  (0 < nextChargingDurationSeconds g /\
   exists timespec,
     In (Schedule_Create None timespec 1 18000)
        (V50.scheduleCharging cfg
           (hostAnswering 0 0 (fun switchId => if switchId =? 0 then -1 else 0)) g)).
Proof.
  intros cfg g. split; [| split].
  - split; [discriminate |].
    apply (proj1 (V50_reconciler_failure_handling cfg (hostAnswering (-1) 0 (fun _ => 0)) g)).
    discriminate.
  - split; [discriminate |].
    apply (proj1 (proj2 (V50_reconciler_failure_handling cfg
                           (hostAnswering 0 (-1) (fun _ => 0)) g))).
    discriminate.
  - split; [reflexivity |].
    apply (proj2 (proj2 (V50_reconciler_failure_handling cfg
                           (hostAnswering 0 0 (fun _ => 0)) g))
             eq_refl eq_refl eq_refl eq_refl
             (fun switchId => if switchId =? 0 then -1 else 0)).
    right. left. reflexivity.
Defined.

(** C4 (the code departs from the claim).  Version 4.2 has no list step and
    calls [Schedule.DeleteAll] without a callback, so [scheduleCharging] never
    sees its answer: whatever error codes the host gives to listing and
    deleting, the calls are the same, and with two switches and a duration of
    5 hours both [Schedule.Create] requests follow a deletion that failed.
    The answer to [Schedule.Create] is read (lines 196-199), and version 5.0
    stops on a failed list or delete. *)
Theorem C4_v42_failed_delete_does_not_abort :
  (forall (cfg : config) (h : host) (g : globals) (listErr deleteErr : Z),
      V42.scheduleCharging cfg
        {| forecast_err := forecast_err h; forecast_res := forecast_res h;
           status := status h; getMonth := getMonth h;
           list_err := listErr; list_jobs := list_jobs h;
           delete_err := deleteErr; create_err := create_err h |} g =
      V42.scheduleCharging cfg h g) /\
  (forall (g : globals) (listErr deleteErr : Z),
      V42.scheduleCharging (configWith [0; 1] "" "" false "19:00")
        (hostAnswering listErr deleteErr (fun _ => 0))
        (set_nextChargingDurationSeconds g (5 * 3600)) =
      (set_nextChargingDurationSeconds g (5 * 3600),
       [Schedule_DeleteAll (Some 0); Schedule_Create (Some 0) "0 00 01 * * *" 0 (5 * 3600);
        Schedule_DeleteAll (Some 1); Schedule_Create (Some 1) "0 00 01 * * *" 1 (5 * 3600)])) /\
  filter isCreate
    (V50.scheduleCharging (configWith [0; 1] "" "" false "19:00")
       (hostAnswering 0 (-1) (fun _ => 0))
       (set_nextChargingDurationSeconds initialGlobals (5 * 3600))) = [].
Proof.
  split; [| split; [| reflexivity]].
  - intros cfg h g listErr deleteErr. reflexivity.
  - intros g listErr deleteErr. destruct g. reflexivity.
Qed.

(** C5.  The start returned by the backward scheduler of version 4.2 is the
    window end minus the final duration, modulo one day, so start plus
    duration is the window end; the final duration never exceeds the span,
    and a positive required duration that fits the window is kept.  Version
    5.0 builds its [Schedule.Create] requests from the same start.  For
    22:00-06:00 and 5 hours the start is 01:00 and the duration stays 5
    hours. *)
Theorem C5_start_is_window_end_minus_final_duration :
  (forall (cfg : config) (ws we required : Z),
      timeToSeconds (CHARGING_WINDOW_START cfg) = Some ws ->
      timeToSeconds (CHARGING_WINDOW_END cfg) = Some we ->
      inDay ws -> inDay we ->
      exists start finalDuration,
        V42.backwardSchedule cfg required = (finalDuration, Some start) /\
        finalDuration <= span ws we /\
        start = (we - finalDuration + 86400) mod 86400 /\
        (start + finalDuration) mod 86400 = we /\
        (0 < required <= span ws we -> finalDuration = required)) /\
  (forall (cfg : config) (we : Z) (h : host) (g : globals),
      timeToSeconds (CHARGING_WINDOW_END cfg) = Some we ->
      IS_TEST_MODE cfg = false -> list_err h = 0 -> delete_err h = 0 ->
      0 < nextChargingDurationSeconds g <= we + 86400 ->
      filter isCreate (V50.scheduleCharging cfg h g) =
        map (fun switchId =>
               Schedule_Create None
                 (V50.cronExpr
                    (Some ((we - nextChargingDurationSeconds g + 86400) mod 86400)))
                 switchId (nextChargingDurationSeconds g))
            (SWITCH_IDS cfg)) /\
  V42.backwardSchedule CONFIG_4_2 (5 * 3600) = (5 * 3600, timeToSeconds "01:00") /\
  secondsToTime (timeToSeconds "01:00") = "01:00" /\
  (forall (h : host) (g : globals),
      V42.scheduleCharging CONFIG_4_2_production h
        (set_nextChargingDurationSeconds g (5 * 3600)) =
      (set_nextChargingDurationSeconds g (5 * 3600),
       [Schedule_DeleteAll (Some 0);
        Schedule_Create (Some 0) "0 00 01 * * *" 0 (5 * 3600)]) /\
      V50.scheduleCharging CONFIG (hostAnswering 0 0 (create_err h))
        (set_nextChargingDurationSeconds g (5 * 3600)) =
      [Schedule_List; Schedule_DeleteAll None;
       Schedule_Create None "0 0 1 * * *" 0 (5 * 3600)]).
Proof.
  split; [| split; [| split; [reflexivity | split; [reflexivity |]]]];
    [| | intros h g; split;
         [rewrite (surjective_pairing (V42.scheduleCharging _ _ _)); f_equal;
          apply (V42_scheduleCharging_shipped h _ 18000 (Some 3600)); [reflexivity | lia]
         | destruct g; cbn; destruct (create_err h 0 =? 0); reflexivity]].
  - intros cfg ws we required Hs He Hws Hwe.
    pose proof (backwardSchedule_anchored cfg ws we required Hs He Hws Hwe) as Hanchor.
    assert (Hle : fst (V42.backwardSchedule cfg required) <= span ws we).
    { rewrite (backwardSchedule_parsed cfg ws we required Hs He). cbv zeta.
      match goal with |- context [if negb ?b && ?c then _ else _] => destruct (negb b && c) end;
        cbn [fst]; [lia |]. destruct (Z.ltb_spec (span ws we) required); lia. }
    assert (Hkept : 0 < required <= span ws we ->
                    fst (V42.backwardSchedule cfg required) = required).
    { intros Hfit. now rewrite (backwardSchedule_fits cfg ws we required Hs He Hws Hwe Hfit). }
    destruct (V42.backwardSchedule cfg required) as [d st]. cbn [fst snd] in *.
    exists ((we - d + 86400) mod 86400), d.
    split; [now rewrite Hanchor |]. split; [exact Hle |]. split; [reflexivity |]. split.
    + unfold inDay in *. rewrite Z.add_mod_idemp_l by lia.
      replace (we - d + 86400 + d) with (we + 86400) by lia.
      rewrite <- (Z.add_mod_idemp_r _ 86400), Z.mod_same, Z.add_0_r by lia.
      apply Z.mod_small; lia.
    + exact Hkept.
  - intros cfg we h g He Hmode Hlist Hdel Hd.
    rewrite (V50_scheduleCharging_creates cfg h g Hmode Hlist Hdel) by lia.
    rewrite He. cbn [dynamicStartSeconds option_map].
    change (24 * 3600) with 86400. rewrite rem_is_mod by lia. reflexivity.
Qed.

Lemma C5_start_is_window_end_minus_final_duration_witness :
  timeToSeconds (CHARGING_WINDOW_START CONFIG_4_2) = Some 79200 /\
  timeToSeconds (CHARGING_WINDOW_END CONFIG_4_2) = Some 21600 /\
  inDay 79200 /\ inDay 21600 /\
  exists start finalDuration,
    V42.backwardSchedule CONFIG_4_2 18000 = (finalDuration, Some start) /\
    finalDuration <= span 79200 21600 /\
    start = (21600 - finalDuration + 86400) mod 86400 /\
    (start + finalDuration) mod 86400 = 21600 /\
    (0 < 18000 <= span 79200 21600 -> finalDuration = 18000).
Proof.
  split; [reflexivity |]. split; [reflexivity |].
  split; [unfold inDay; lia |]. split; [unfold inDay; lia |].
  apply (proj1 C5_start_is_window_end_minus_final_duration CONFIG_4_2 79200 21600 18000);
    first [reflexivity | unfold inDay; lia].
Defined.

(** ** Test mode *)

Lemma V42_scheduleCharging_test_mode (cfg : config) (h : host) (g : globals) :
  IS_TEST_MODE cfg = true -> snd (V42.scheduleCharging cfg h g) = [].
Proof.
  intros Hmode. unfold V42.scheduleCharging.
  destruct (V42.backwardSchedule cfg (nextChargingDurationSeconds g)) as [d st].
  now rewrite Hmode.
Qed.

Ltac split_cycle :=
  repeat match goal with
    | |- context [match ?x with Some _ => _ | None => _ end] => destruct x
    | |- context [match ?x with Throws _ => _ | Hourly _ => _ end] => destruct x
    | |- context [if ?b then _ else _] => destruct b
    end.

Lemma V50_cycle_test_mode (cfg : config) (h : host) (g : globals) :
  IS_TEST_MODE cfg = true ->
  filter isScheduleCall (snd (V50.getWeatherAndCalculateDuration cfg h g)) = [].
Proof.
  intros Hmode.
  unfold V50.getWeatherAndCalculateDuration, V50.calculateFallbackDuration,
    V50.calculateChargingDuration, V50.scheduleCharging.
  rewrite Hmode. unfold V50.notify.
  split_cycle; cbn [snd filter isScheduleCall];
    rewrite ?filter_app, ?notify_isScheduleCall; reflexivity.
Qed.

Lemma V42_cycle_test_mode (cfg : config) (h : host) (g : globals) :
  IS_TEST_MODE cfg = true ->
  filter isScheduleCall (snd (V42.getWeatherAndCalculateDuration cfg h g)) = [].
Proof.
  intros Hmode.
  assert (Hs : forall g', V42.scheduleCharging cfg h g' = (fst (V42.scheduleCharging cfg h g'), [])).
  { intros g'. rewrite <- (V42_scheduleCharging_test_mode cfg h g' Hmode).
    now destruct (V42.scheduleCharging cfg h g'). }
  unfold V42.getWeatherAndCalculateDuration, V42.calculateFallbackDuration,
    V42.calculateChargingDuration.
  unfold V42.notify.
  split_cycle; rewrite Hs; cbn [snd filter isScheduleCall];
    rewrite ?filter_app, ?notify_isScheduleCall; reflexivity.
Qed.

(** C10.  With the test-mode flag set, [scheduleCharging] issues no call at
    all in either version, so a whole decision cycle contains no
    [Schedule.List], [Schedule.DeleteAll] or [Schedule.Create] and leaves the
    stored schedules of the device as they were. *)
Theorem C10_test_mode_leaves_schedules_untouched
    (cfg : config) (h : host) (g : globals) (store : list (string * Z * Z)) :
  IS_TEST_MODE cfg = true ->
  V50.scheduleCharging cfg h g = [] /\
  snd (V42.scheduleCharging cfg h g) = [] /\
  filter isScheduleCall (snd (V50.getWeatherAndCalculateDuration cfg h g)) = [] /\
  filter isScheduleCall (snd (V42.getWeatherAndCalculateDuration cfg h g)) = [] /\
  device (snd (V50.getWeatherAndCalculateDuration cfg h g)) store = store /\
  device (snd (V42.getWeatherAndCalculateDuration cfg h g)) store = store.
Proof.
  intros Hmode.
  pose proof (V50_cycle_test_mode cfg h g Hmode) as H50.
  pose proof (V42_cycle_test_mode cfg h g Hmode) as H42.
  repeat split.
  - unfold V50.scheduleCharging. now rewrite Hmode.
  - now apply V42_scheduleCharging_test_mode.
  - exact H50.
  - exact H42.
  - now apply device_no_schedule_call.
  - now apply device_no_schedule_call.
Qed.

Lemma C10_test_mode_leaves_schedules_untouched_witness :
  let h := hostWith (repeat 5%Q 48) in
  let store := [("0 0 1 * * *", 0, 18000)] in
  IS_TEST_MODE CONFIG_4_2 = true /\
  V50.scheduleCharging CONFIG_4_2 h initialGlobals = [] /\
  snd (V42.scheduleCharging CONFIG_4_2 h initialGlobals) = [] /\
  filter isScheduleCall (snd (V50.getWeatherAndCalculateDuration CONFIG_4_2 h initialGlobals)) = [] /\
  filter isScheduleCall (snd (V42.getWeatherAndCalculateDuration CONFIG_4_2 h initialGlobals)) = [] /\
  device (snd (V50.getWeatherAndCalculateDuration CONFIG_4_2 h initialGlobals)) store = store /\
  device (snd (V42.getWeatherAndCalculateDuration CONFIG_4_2 h initialGlobals)) store = store.
Proof.
  intros h store. split; [reflexivity |].
  apply (C10_test_mode_leaves_schedules_untouched CONFIG_4_2 h initialGlobals store).
  reflexivity.
Defined.

(** ** The duration calculators *)

(** C6.  The hours computed by [calculateChargingDuration] are 0 from
    [START_TEMP] upwards, never negative, and below [START_TEMP] the smaller
    of [MAX_RUNTIME_HOURS] and [(START_TEMP - avgTemp) * SLOPE] (for a slope
    and a maximum that are not negative); the duration in seconds is these
    hours times 3600, rounded. *)
Theorem C6_forecast_duration (cfg : config) (avgTemp : Q) :
  (START_TEMP cfg <= avgTemp -> chargingHours cfg avgTemp = 0)%Q /\
  (0 <= chargingHours cfg avgTemp)%Q /\
  (0 <= SLOPE cfg -> 0 <= MAX_RUNTIME_HOURS cfg -> avgTemp < START_TEMP cfg ->
   chargingHours cfg avgTemp ==
     Qmin (MAX_RUNTIME_HOURS cfg) ((START_TEMP cfg - avgTemp) * SLOPE cfg))%Q /\
  (forall (h : host) (g : globals),
      nextChargingDurationSeconds (fst (V50.calculateChargingDuration cfg h avgTemp g)) =
        Js.Math_round (chargingHours cfg avgTemp * 3600)%Q).
Proof.
  split; [| split; [| split]].
  - intros Hge. unfold chargingHours.
    destruct (Qlt_le_dec avgTemp (START_TEMP cfg)) as [Hlt | _].
    + exfalso. exact (Qlt_not_le _ _ Hlt Hge).
    + destruct (Qlt_le_dec (MAX_RUNTIME_HOURS cfg) 0) as [Hneg | _].
      * destruct (Qlt_le_dec (MAX_RUNTIME_HOURS cfg) 0) as [_ | Hpos]; [reflexivity |].
        exfalso. exact (Qlt_not_le _ _ Hneg Hpos).
      * destruct (Qlt_le_dec 0 0) as [Habs | _]; [| reflexivity].
        exfalso. exact (Qlt_irrefl _ Habs).
  - unfold chargingHours.
    match goal with |- (0 <= if Qlt_le_dec ?x 0 then _ else _)%Q =>
      destruct (Qlt_le_dec x 0) as [_ | Hpos]; [apply Qle_refl | exact Hpos] end.
  - intros Hslope Hmax Hlt. unfold chargingHours.
    destruct (Qlt_le_dec avgTemp (START_TEMP cfg)) as [_ | Hge];
      [| exfalso; exact (Qlt_not_le _ _ Hlt Hge)].
    set (x := ((START_TEMP cfg - avgTemp) * SLOPE cfg)%Q).
    assert (Hx : (0 <= x)%Q).
    { unfold x. apply Qmult_le_0_compat; [| exact Hslope].
      apply Qlt_le_weak. unfold Qminus. rewrite <- Qlt_minus_iff. exact Hlt. }
    destruct (Qlt_le_dec (MAX_RUNTIME_HOURS cfg) x) as [Hcap | Hfit].
    + destruct (Qlt_le_dec (MAX_RUNTIME_HOURS cfg) 0) as [Hneg | _];
        [exfalso; exact (Qlt_not_le _ _ Hneg Hmax) |].
      symmetry. apply Q.min_l. apply Qlt_le_weak. exact Hcap.
    + destruct (Qlt_le_dec x 0) as [Hneg | _];
        [exfalso; exact (Qlt_not_le _ _ Hneg Hx) |].
      symmetry. apply Q.min_r. exact Hfit.
  - intros h g. reflexivity.
Qed.

Lemma C6_forecast_duration_witness :
  ((START_TEMP CONFIG <= 20)%Q /\ chargingHours CONFIG 20 = 0%Q) /\
  (0 <= SLOPE CONFIG)%Q /\ (0 <= MAX_RUNTIME_HOURS CONFIG)%Q /\ (5 < START_TEMP CONFIG)%Q /\
  (chargingHours CONFIG 5 == Qmin (MAX_RUNTIME_HOURS CONFIG) ((START_TEMP CONFIG - 5) * SLOPE CONFIG))%Q.
Proof.
  split.
  - split; [discriminate |]. apply (proj1 (C6_forecast_duration CONFIG 20)). discriminate.
  - split; [discriminate |]. split; [discriminate |]. split; [reflexivity |].
    apply (proj1 (proj2 (proj2 (C6_forecast_duration CONFIG 5))));
      first [discriminate | reflexivity].
Defined.

(** C7.  For a month from 1 to 12, [calculateFallbackDuration] takes the
    constant of the month's quarter: months 1-3 the first, 4-6 the second,
    7-9 the third, 10-12 the fourth; every month lies in exactly one
    quarter. *)
Theorem C7_fallback_by_quarter (cfg : config) (month : Z) :
  1 <= month <= 12 ->
  (1 <= month <= 3 -> fallbackHours cfg month = FALLBACK_HOURS_Q1 cfg) /\
  (4 <= month <= 6 -> fallbackHours cfg month = FALLBACK_HOURS_Q2 cfg) /\
  (7 <= month <= 9 -> fallbackHours cfg month = FALLBACK_HOURS_Q3 cfg) /\
  (10 <= month <= 12 -> fallbackHours cfg month = FALLBACK_HOURS_Q4 cfg) /\
  (exists quarter,
      1 <= quarter <= 4 /\ 3 * quarter - 2 <= month <= 3 * quarter /\
      fallbackHours cfg month = quarterConstant cfg quarter /\
      forall other, 3 * other - 2 <= month <= 3 * other -> other = quarter) /\
  (forall (h : host) (g : globals),
      fallbackMonth h = month ->
      nextChargingDurationSeconds (fst (V50.calculateFallbackDuration cfg h g)) =
        Js.Math_round (fallbackHours cfg month * 3600)%Q).
Proof.
  intros Hmonth. unfold fallbackHours.
  repeat split.
  - intros H. destruct (Z.leb_spec month 3); [reflexivity | lia].
  - intros H. destruct (Z.leb_spec month 3); [lia |].
    destruct (Z.leb_spec month 6); [reflexivity | lia].
  - intros H. destruct (Z.leb_spec month 3); [lia |].
    destruct (Z.leb_spec month 6); [lia |].
    destruct (Z.leb_spec month 9); [reflexivity | lia].
  - intros H. destruct (Z.leb_spec month 3); [lia |].
    destruct (Z.leb_spec month 6); [lia |].
    destruct (Z.leb_spec month 9); [lia | reflexivity].
  - exists ((month + 2) / 3).
    assert (Hq : 3 * ((month + 2) / 3) <= month + 2 < 3 * ((month + 2) / 3) + 3).
    { pose proof (Z.div_mod (month + 2) 3 ltac:(lia)).
      pose proof (Z.mod_pos_bound (month + 2) 3 ltac:(lia)). lia. }
    split; [lia |]. split; [lia |]. split; [| intros other Ho; lia].
    assert (Hc : (month + 2) / 3 = 1 \/ (month + 2) / 3 = 2 \/
                 (month + 2) / 3 = 3 \/ (month + 2) / 3 = 4) by lia.
    destruct Hc as [Hc | [Hc | [Hc | Hc]]]; rewrite Hc in *; cbn [quarterConstant];
      destruct (Z.leb_spec month 3); try lia; try reflexivity;
      destruct (Z.leb_spec month 6); try lia; try reflexivity;
      destruct (Z.leb_spec month 9); try lia; reflexivity.
  - intros h g <-. reflexivity.
Qed.

Lemma C7_fallback_by_quarter_witness :
  1 <= 11 <= 12 /\
  (10 <= 11 <= 12 -> fallbackHours CONFIG 11 = FALLBACK_HOURS_Q4 CONFIG).
Proof.
  split; [lia |].
  apply (C7_fallback_by_quarter CONFIG 11). lia.
Defined.

(** ** Percent-encoding of the notification text *)

Lemma occurs_append (c : ascii) (s t : string) :
  occurs c (s ++ t) = occurs c s || occurs c t.
Proof.
  induction s as [| a s IH]; [reflexivity |].
  cbn [append occurs]. now rewrite IH, orb_assoc.
Qed.

Lemma split_not_nil (c : ascii) (s : string) : Js.split c s <> [].
Proof.
  destruct s as [| a s]; cbn [Js.split]; [discriminate |].
  destruct (Ascii.eqb a c); [discriminate |].
  destruct (Js.split c s); discriminate.
Qed.

(** [s.split(c).join(r)] replaces every [c] by [r] and keeps the rest. *)
Lemma join_split_String (c : ascii) (r : string) (a : ascii) (s : string) :
  Js.join r (Js.split c (String a s)) =
    if Ascii.eqb a c then r ++ Js.join r (Js.split c s)
    else String a (Js.join r (Js.split c s)).
Proof.
  cbn [Js.split]. pose proof (split_not_nil c s) as Hne.
  destruct (Ascii.eqb a c).
  - destruct (Js.split c s) as [| p ps]; [contradiction |]. reflexivity.
  - destruct (Js.split c s) as [| p ps]; [contradiction |].
    destruct ps; reflexivity.
Qed.

Lemma occurs_join_split (c d : ascii) (r s : string) :
  occurs c r = false ->
  occurs c (Js.join r (Js.split d s)) = if Ascii.eqb d c then false else occurs c s.
Proof.
  intros Hr. induction s as [| a s IH].
  - cbn. now destruct (Ascii.eqb d c).
  - rewrite join_split_String. destruct (Ascii.eqb_spec a d) as [-> | Hne].
    + rewrite occurs_append, Hr, IH. cbn [orb occurs].
      destruct (Ascii.eqb d c); reflexivity.
    + cbn [occurs]. rewrite IH. destruct (Ascii.eqb_spec d c) as [-> | Hdc]; [| reflexivity].
      apply orb_false_iff. split; [| reflexivity]. now apply Ascii.eqb_neq.
Qed.

Ltac encoded :=
  cbv zeta; repeat rewrite occurs_join_split by reflexivity; reflexivity.


(** Version 4.2 encodes the same four punctuation characters, but leaves a
    newline as it is; none of its messages contains one. *)
Lemma V42_urlEncode_encodes (s : string) (c : ascii) :
  In c [" "; ":"; "."; ","]%char -> occurs c (V42.urlEncode s) = false.
Proof.
  intros Hc. unfold V42.urlEncode.
  repeat (destruct Hc as [<- | Hc]; [encoded |]). contradiction.
Qed.

Lemma V42_urlEncode_keeps_newline : V42.urlEncode nl = nl.
Proof. reflexivity. Qed.



(** ** Forecast failures *)

Lemma slice_short (temps : list Q) :
  (List.length temps < 48)%nat <-> (List.length (slice_24_48 temps) <? 24)%nat = true.
Proof.
  unfold slice_24_48. rewrite Nat.ltb_lt, length_firstn, length_skipn. lia.
Qed.

Lemma V50_cycle_transport_failure (cfg : config) (h : host) (g : globals) :
  transportFailure h ->
  V50.getWeatherAndCalculateDuration cfg h g =
    (set_nextChargingDurationSeconds g (fallbackSeconds cfg h),
     HTTP_GET (weatherUrl cfg) ::
     V50.notify cfg ("Weather API unreachable. Code: " ++ Js.String_ (forecast_err h)) ++
     Sys_GetStatus ::
     V50.scheduleCharging cfg h (set_nextChargingDurationSeconds g (fallbackSeconds cfg h)))%list.
Proof.
  intros Hfail. unfold V50.getWeatherAndCalculateDuration, V50.calculateFallbackDuration.
  destruct (forecast_res h) as [res |] eqn:Hres; [| reflexivity].
  assert (Hb : negb (forecast_err h =? 0) || negb (code res =? 200) = true).
  { apply orb_true_iff. destruct Hfail as [Herr | [Hnone | [res' [Heq Hcode]]]].
    - left. apply negb_true_iff. now apply Z.eqb_neq.
    - congruence.
    - right. assert (res' = res) as -> by congruence.
      apply negb_true_iff. now apply Z.eqb_neq. }
  now rewrite Hb.
Qed.

Lemma V50_cycle_malformed (cfg : config) (h : host) (g : globals) (message : string) :
  malformedBody h message ->
  V50.getWeatherAndCalculateDuration cfg h g =
    (set_nextChargingDurationSeconds g (fallbackSeconds cfg h),
     HTTP_GET (weatherUrl cfg) ::
     V50.notify cfg ("Failed to parse weather data. Error: " ++ message) ++
     Sys_GetStatus ::
     V50.scheduleCharging cfg h (set_nextChargingDurationSeconds g (fallbackSeconds cfg h)))%list.
Proof.
  intros [Herr [res [Hres [Hcode Hbody]]]].
  unfold V50.getWeatherAndCalculateDuration, V50.calculateFallbackDuration.
  rewrite Hres, Herr, Hcode. cbn [Z.eqb negb orb].
  destruct Hbody as [-> | [temps [-> [Hshort ->]]]]; [reflexivity |].
  apply slice_short in Hshort. now rewrite Hshort.
Qed.

Lemma V42_cycle_transport_failure (cfg : config) (h : host) (g : globals) :
  transportFailure h ->
  V42.getWeatherAndCalculateDuration cfg h g =
    (fst (V42.scheduleCharging cfg h (set_nextChargingDurationSeconds g (fallbackSeconds cfg h))),
     HTTP_GET (weatherUrl cfg) ::
     V42.notify cfg "Weather API unreachable." ++
     Sys_GetStatus ::
     snd (V42.scheduleCharging cfg h
            (set_nextChargingDurationSeconds g (fallbackSeconds cfg h))))%list.
Proof.
  intros Hfail. unfold V42.getWeatherAndCalculateDuration, V42.calculateFallbackDuration,
    fallbackSeconds.
  destruct (V42.scheduleCharging cfg h _) as [g' calls]. cbn [fst snd].
  destruct (forecast_res h) as [res |] eqn:Hres; [| reflexivity].
  assert (Hb : negb (forecast_err h =? 0) || negb (code res =? 200) = true).
  { apply orb_true_iff. destruct Hfail as [Herr | [Hnone | [res' [Heq Hcode]]]].
    - left. apply negb_true_iff. now apply Z.eqb_neq.
    - congruence.
    - right. assert (res' = res) as -> by congruence.
      apply negb_true_iff. now apply Z.eqb_neq. }
  now rewrite Hb.
Qed.

Lemma V42_cycle_malformed (cfg : config) (h : host) (g : globals) (message : string) :
  malformedBody h message ->
  V42.getWeatherAndCalculateDuration cfg h g =
    (fst (V42.scheduleCharging cfg h (set_nextChargingDurationSeconds g (fallbackSeconds cfg h))),
     HTTP_GET (weatherUrl cfg) ::
     V42.notify cfg "Failed to parse weather data." ++
     Sys_GetStatus ::
     snd (V42.scheduleCharging cfg h
            (set_nextChargingDurationSeconds g (fallbackSeconds cfg h))))%list.
Proof.
  intros [Herr [res [Hres [Hcode Hbody]]]].
  unfold V42.getWeatherAndCalculateDuration, V42.calculateFallbackDuration, fallbackSeconds.
  destruct (V42.scheduleCharging cfg h _) as [g' calls]. cbn [fst snd].
  rewrite Hres, Herr, Hcode. cbn [Z.eqb negb orb].
  destruct Hbody as [-> | [temps [-> [Hshort ->]]]]; [reflexivity |].
  apply slice_short in Hshort. now rewrite Hshort.
Qed.

Lemma notify_gate (urlEncode : string -> string) (cfg : config) (message : string) :
  (TELEGRAM_BOT_TOKEN cfg = "" \/ TELEGRAM_CHAT_ID cfg = "" ->
   sendTelegramNotification urlEncode cfg message = []) /\
  (TELEGRAM_BOT_TOKEN cfg <> "" -> TELEGRAM_CHAT_ID cfg <> "" ->
   sendTelegramNotification urlEncode cfg message =
     [HTTP_GET (telegramUrl cfg (urlEncode ("Shelly Heater: " ++ message)))]).
Proof.
  unfold sendTelegramNotification. split.
  - intros [-> | ->]; [reflexivity |]. now rewrite orb_true_r.
  - intros Ht Hc. apply String.eqb_neq in Ht, Hc. now rewrite Ht, Hc.
Qed.

(** C8, as the code has it.  When the forecast request fails or its body is
    malformed, both versions go on: the failure message is handed to
    [sendTelegramNotification], the seasonal fallback duration is computed
    and [scheduleCharging] runs with it.  The notification itself is only
    requested when a bot token and a chat id are configured.  The fallback is
    scheduled, one [Schedule.Create] per configured switch in version 5.0,
    exactly when the script is in production mode, listing and deleting
    succeed and the fallback duration is positive. *)
Theorem C8_forecast_failure_falls_back (cfg : config) (h : host) (g : globals) :
  let g' := set_nextChargingDurationSeconds g (fallbackSeconds cfg h) in
  (transportFailure h ->
   V50.getWeatherAndCalculateDuration cfg h g =
     (g',
      HTTP_GET (weatherUrl cfg) ::
      V50.notify cfg ("Weather API unreachable. Code: " ++ Js.String_ (forecast_err h)) ++
      Sys_GetStatus :: V50.scheduleCharging cfg h g')%list /\
   V42.getWeatherAndCalculateDuration cfg h g =
     (fst (V42.scheduleCharging cfg h g'),
      HTTP_GET (weatherUrl cfg) ::
      V42.notify cfg "Weather API unreachable." ++
      Sys_GetStatus :: snd (V42.scheduleCharging cfg h g'))%list) /\
  (forall message,
      malformedBody h message ->
      V50.getWeatherAndCalculateDuration cfg h g =
        (g',
         HTTP_GET (weatherUrl cfg) ::
         V50.notify cfg ("Failed to parse weather data. Error: " ++ message) ++
         Sys_GetStatus :: V50.scheduleCharging cfg h g')%list /\
      V42.getWeatherAndCalculateDuration cfg h g =
        (fst (V42.scheduleCharging cfg h g'),
         HTTP_GET (weatherUrl cfg) ::
         V42.notify cfg "Failed to parse weather data." ++
         Sys_GetStatus :: snd (V42.scheduleCharging cfg h g'))%list) /\
  (forall message,
      (TELEGRAM_BOT_TOKEN cfg = "" \/ TELEGRAM_CHAT_ID cfg = "" ->
       V50.notify cfg message = [] /\ V42.notify cfg message = []) /\
      (TELEGRAM_BOT_TOKEN cfg <> "" -> TELEGRAM_CHAT_ID cfg <> "" ->
       V50.notify cfg message =
         [HTTP_GET (telegramUrl cfg (V50.urlEncode ("Shelly Heater: " ++ message)))] /\
       V42.notify cfg message =
         [HTTP_GET (telegramUrl cfg (V42.urlEncode ("Shelly Heater: " ++ message)))])) /\
  (transportFailure h \/ (exists message, malformedBody h message) ->
   filter isCreate (snd (V50.getWeatherAndCalculateDuration cfg h g)) =
     filter isCreate (V50.scheduleCharging cfg h g') /\
   filter isCreate (snd (V42.getWeatherAndCalculateDuration cfg h g)) =
     filter isCreate (snd (V42.scheduleCharging cfg h g')) /\
   (IS_TEST_MODE cfg = false -> list_err h = 0 -> delete_err h = 0 ->
    0 < fallbackSeconds cfg h ->
    filter isCreate (snd (V50.getWeatherAndCalculateDuration cfg h g)) =
      map (fun switchId =>
             Schedule_Create None
               (V50.cronExpr (dynamicStartSeconds (timeToSeconds (CHARGING_WINDOW_END cfg))
                                                  (fallbackSeconds cfg h)))
               switchId (fallbackSeconds cfg h))
          (SWITCH_IDS cfg)) /\
   (IS_TEST_MODE cfg = true \/ list_err h <> 0 \/ delete_err h <> 0 \/
    fallbackSeconds cfg h <= 0 ->
    filter isCreate (snd (V50.getWeatherAndCalculateDuration cfg h g)) = [])).
Proof.
  intros g'. split; [| split; [| split]].
  - intros Hfail. split.
    + now apply V50_cycle_transport_failure.
    + now apply V42_cycle_transport_failure.
  - intros message Hbad. split.
    + exact (V50_cycle_malformed cfg h g message Hbad).
    + exact (V42_cycle_malformed cfg h g message Hbad).
  - intros message. split.
    + intros Hempty. split; apply (proj1 (notify_gate _ cfg message)); exact Hempty.
    + intros Ht Hc. split; apply (proj2 (notify_gate _ cfg message)); assumption.
  - intros Hfail.
    assert (H50 : filter isCreate (snd (V50.getWeatherAndCalculateDuration cfg h g)) =
                  filter isCreate (V50.scheduleCharging cfg h g')).
    { destruct Hfail as [Ht | [message Hm]];
        [rewrite (V50_cycle_transport_failure cfg h g Ht)
        | rewrite (V50_cycle_malformed cfg h g message Hm)];
        cbn [snd filter isCreate]; rewrite filter_app; unfold V50.notify at 1;
        now rewrite notify_isCreate. }
    assert (H42 : filter isCreate (snd (V42.getWeatherAndCalculateDuration cfg h g)) =
                  filter isCreate (snd (V42.scheduleCharging cfg h g'))).
    { destruct Hfail as [Ht | [message Hm]];
        [rewrite (V42_cycle_transport_failure cfg h g Ht)
        | rewrite (V42_cycle_malformed cfg h g message Hm)];
        cbn [snd filter isCreate]; rewrite filter_app; unfold V42.notify at 1;
        now rewrite notify_isCreate. }
    split; [exact H50 |]. split; [exact H42 |]. split.
    + intros Hmode Hlist Hdel Hpos. rewrite H50.
      now rewrite (V50_scheduleCharging_creates cfg h g' Hmode Hlist Hdel Hpos).
    + intros Hnot. rewrite H50. apply V50_no_create_unless. exact Hnot.
Qed.

Lemma C8_forecast_failure_falls_back_witness :
  let cfg := configWith [0] "123:ABC" "42" false "19:00" in
  let h := hostAnswering 0 0 (fun _ => 0) in
  transportFailure h /\
  TELEGRAM_BOT_TOKEN cfg <> "" /\ TELEGRAM_CHAT_ID cfg <> "" /\
  V50.getWeatherAndCalculateDuration cfg h initialGlobals =
    (set_nextChargingDurationSeconds initialGlobals 18000,
     [HTTP_GET (weatherUrl cfg);
      HTTP_GET (telegramUrl cfg "Shelly%20Heater%3A%20Weather%20API%20unreachable%2E%20Code%3A%20-1");
      Sys_GetStatus; Schedule_List; Schedule_DeleteAll None;
      Schedule_Create None "0 0 1 * * *" 0 18000]) /\
  IS_TEST_MODE cfg = false /\ list_err h = 0 /\ delete_err h = 0 /\
  0 < fallbackSeconds cfg h /\
  filter isCreate (snd (V50.getWeatherAndCalculateDuration cfg h initialGlobals)) =
    [Schedule_Create None "0 0 1 * * *" 0 18000].
Proof.
  intros cfg h.
  assert (Hfail : transportFailure h) by (left; discriminate).
  split; [exact Hfail |]. split; [discriminate |]. split; [discriminate |].
  split.
  - rewrite (proj1 (proj1 (C8_forecast_failure_falls_back cfg h initialGlobals) Hfail)).
    reflexivity.
  - repeat (split; [reflexivity |]).
    rewrite (proj1 (proj2 (proj2 (proj2 (proj2 (proj2
               (C8_forecast_failure_falls_back cfg h initialGlobals))) (or_introl Hfail))))
               eq_refl eq_refl eq_refl eq_refl).
    reflexivity.
Defined.

(** C8 as stated fails on both of its promises, with [CONFIG] as shipped (no
    bot token, no chat id) and a forecast request that fails.  In November
    the cycle goes on to the fallback and schedules it, but no notification
    is requested: the only [HTTP.GET] of the cycle is the forecast request.
    In July the fallback is [FALLBACK_HOURS_Q3], 0 hours: the schedules are
    listed and deleted, and nothing is scheduled.  Version 4.2 ships in test
    mode: its cycle ends after the fallback is computed, with neither a
    notification nor a schedule call. *)
Lemma C8_no_notification_and_no_timed_action :
  (transportFailure (hostAnswering 0 0 (fun _ => 0)) /\
   snd (V50.getWeatherAndCalculateDuration CONFIG (hostAnswering 0 0 (fun _ => 0))
          initialGlobals) =
     [HTTP_GET (weatherUrl CONFIG); Sys_GetStatus; Schedule_List; Schedule_DeleteAll None;
      Schedule_Create None "0 0 1 * * *" 0 18000] /\
   ~ (exists text,
         In (HTTP_GET (telegramUrl CONFIG text))
            (snd (V50.getWeatherAndCalculateDuration CONFIG (hostAnswering 0 0 (fun _ => 0))
                    initialGlobals)))) /\
  (transportFailure (hostInMonth 6) /\
   fallbackMonth (hostInMonth 6) = 7 /\
   fallbackSeconds CONFIG (hostInMonth 6) = 0 /\
   snd (V50.getWeatherAndCalculateDuration CONFIG (hostInMonth 6) initialGlobals) =
     [HTTP_GET (weatherUrl CONFIG); Sys_GetStatus; Schedule_List; Schedule_DeleteAll None] /\
   filter isCreate
     (snd (V50.getWeatherAndCalculateDuration CONFIG (hostInMonth 6) initialGlobals)) = []) /\
  (IS_TEST_MODE CONFIG_4_2 = true /\
   snd (V42.getWeatherAndCalculateDuration CONFIG_4_2 (hostAnswering 0 0 (fun _ => 0))
          initialGlobals) =
     [HTTP_GET (weatherUrl CONFIG_4_2); Sys_GetStatus]).
Proof.
  split; [| split].
  - split; [left; discriminate |]. split; [reflexivity |].
    intros [text Hin].
    change (snd (V50.getWeatherAndCalculateDuration CONFIG (hostAnswering 0 0 (fun _ => 0))
                   initialGlobals))
      with [HTTP_GET (weatherUrl CONFIG); Sys_GetStatus; Schedule_List;
            Schedule_DeleteAll None; Schedule_Create None "0 0 1 * * *" 0 18000] in Hin.
    cbn [In] in Hin.
    destruct Hin as [H | [H | [H | [H | [H | []]]]]]; discriminate H.
  - split; [left; discriminate |]. repeat (split; [reflexivity |]). reflexivity.
  - split; reflexivity.
Qed.

(** ** The daily trigger *)

Lemma telegramUrl_not_weatherUrl (cfg : config) (text : string) :
  String.eqb (telegramUrl cfg text) (weatherUrl cfg) = false.
Proof. reflexivity. Qed.

Lemma notify_isForecastRequest (urlEncode : string -> string) (cfg : config) (message : string) :
  filter (isForecastRequest cfg) (sendTelegramNotification urlEncode cfg message) = [].
Proof.
  unfold sendTelegramNotification. destruct (_ || _); [reflexivity |].
  cbn [filter isForecastRequest]. now rewrite telegramUrl_not_weatherUrl.
Qed.

Lemma filter_map_none {A B : Type} (p : B -> bool) (f : A -> B) (l : list A) :
  (forall a, p (f a) = false) -> filter p (map f l) = [].
Proof.
  intros Hf. induction l as [| a l IH]; [reflexivity |].
  cbn [map filter]. now rewrite Hf.
Qed.

Lemma V50_scheduleCharging_isForecastRequest (cfg : config) (h : host) (g : globals) :
  filter (isForecastRequest cfg) (V50.scheduleCharging cfg h g) = [].
Proof.
  unfold V50.scheduleCharging, V50.notify.
  destruct (IS_TEST_MODE cfg); [reflexivity |]. cbn [filter isForecastRequest].
  destruct (negb (list_err h =? 0)); [apply notify_isForecastRequest |].
  rewrite filter_app.
  assert (Hn : filter (isForecastRequest cfg)
                 (if SEND_TELEGRAM_SCHEDULE_LIST cfg
                  then sendTelegramNotification V50.urlEncode cfg (V50.scheduleListMsg h)
                  else []) = []).
  { destruct (SEND_TELEGRAM_SCHEDULE_LIST cfg); [apply notify_isForecastRequest | reflexivity]. }
  rewrite Hn. cbn [app filter isForecastRequest].
  destruct (negb (delete_err h =? 0)); [apply notify_isForecastRequest |].
  destruct (nextChargingDurationSeconds g <=? 0).
  - destruct (SEND_TELEGRAM_NEW_SCHEDULE cfg); [apply notify_isForecastRequest | reflexivity].
  - rewrite filter_app, filter_map_none by reflexivity.
    apply filter_flat_map_nil. intros switchId.
    destruct (create_err h switchId =? 0);
      [destruct (SEND_TELEGRAM_NEW_SCHEDULE cfg); [apply notify_isForecastRequest | reflexivity]
      | apply notify_isForecastRequest].
Qed.

(** A run of [getWeatherAndCalculateDuration] is one cycle. *)
Lemma V50_cycle_once (cfg : config) (h : host) (g : globals) :
  cycles cfg (snd (V50.getWeatherAndCalculateDuration cfg h g)) = 1%nat.
Proof.
  unfold cycles, V50.getWeatherAndCalculateDuration, V50.calculateFallbackDuration,
    V50.calculateChargingDuration, V50.notify.
  assert (Hself : String.eqb (weatherUrl cfg) (weatherUrl cfg) = true) by apply String.eqb_refl.
  split_cycle; cbn [snd filter isForecastRequest]; rewrite Hself;
    rewrite ?filter_app, ?notify_isForecastRequest; cbn [app filter isForecastRequest];
    rewrite V50_scheduleCharging_isForecastRequest; reflexivity.
Qed.

Lemma dailyCheck_no_time (cfg : config) (tk : V50.tick) (g : globals) :
  V50.currentTime (V50.result tk) = None ->
  V50.dailyCheck cfg tk g = (g, [Sys_GetStatus]).
Proof. intros Ht. unfold V50.dailyCheck. now rewrite Ht. Qed.

Lemma dailyCheck_flag (cfg : config) (tk : V50.tick) (g : globals) (t : string) :
  V50.currentTime (V50.result tk) = Some t ->
  hasRunToday (fst (V50.dailyCheck cfg tk g)) =
    fst (stepFlag (DATA_FETCH_TIME cfg) (hasRunToday g) t) /\
  cycles cfg (snd (V50.dailyCheck cfg tk g)) =
    snd (stepFlag (DATA_FETCH_TIME cfg) (hasRunToday g) t).
Proof.
  intros Ht. unfold V50.dailyCheck, V50.trigger, stepFlag. rewrite Ht.
  destruct (String.eqb t (DATA_FETCH_TIME cfg) && negb (hasRunToday g)) eqn:Hran.
  - pose proof (V50_cycle_once cfg (V50.cycleHost tk) g) as Honce.
    destruct (V50.getWeatherAndCalculateDuration cfg (V50.cycleHost tk) g) as [g1 calls].
    cbn [fst snd] in *. split.
    + unfold V50.reset. rewrite orb_true_r.
      destruct (String.eqb t "00:01"); reflexivity.
    + unfold cycles in *. cbn [filter isForecastRequest].
      unfold V50.notify. now rewrite filter_app, notify_isForecastRequest.
  - cbn [fst snd]. split; [| reflexivity].
    unfold V50.reset. rewrite orb_false_r.
    destruct (String.eqb t "00:01"); [| reflexivity].
    destruct (hasRunToday g) eqn:Hflag; [reflexivity | exact Hflag].
Qed.

Lemma cycles_app (cfg : config) (a b : list call) :
  cycles cfg (a ++ b) = (cycles cfg a + cycles cfg b)%nat.
Proof. unfold cycles. now rewrite filter_app, length_app. Qed.

Lemma runFlags_cons (fetchTime : string) (flag : bool) (t : string) (ts : list string) :
  runFlags fetchTime flag (t :: ts) =
    (fst (runFlags fetchTime (fst (stepFlag fetchTime flag t)) ts),
     (snd (stepFlag fetchTime flag t) +
      snd (runFlags fetchTime (fst (stepFlag fetchTime flag t)) ts))%nat).
Proof.
  cbn [runFlags]. destruct (stepFlag fetchTime flag t) as [flag1 n]. cbn [fst snd].
  now destruct (runFlags fetchTime flag1 ts).
Qed.

Lemma runTicks_cons (cfg : config) (tk : V50.tick) (ticks : list V50.tick) (g : globals) :
  V50.runTicks cfg (tk :: ticks) g =
    (fst (V50.runTicks cfg ticks (fst (V50.dailyCheck cfg tk g))),
     (snd (V50.dailyCheck cfg tk g) ++
      snd (V50.runTicks cfg ticks (fst (V50.dailyCheck cfg tk g))))%list).
Proof.
  cbn [V50.runTicks]. destruct (V50.dailyCheck cfg tk g) as [g1 calls]. cbn [fst snd].
  now destruct (V50.runTicks cfg ticks g1).
Qed.

Lemma times_cons (tk : V50.tick) (ticks : list V50.tick) :
  times (tk :: ticks) =
    (match V50.currentTime (V50.result tk) with
     | Some t => [t]
     | None => []
     end ++ times ticks)%list.
Proof. reflexivity. Qed.

Lemma runTicks_flags (cfg : config) (ticks : list V50.tick) (g : globals) :
  hasRunToday (fst (V50.runTicks cfg ticks g)) =
    fst (runFlags (DATA_FETCH_TIME cfg) (hasRunToday g) (times ticks)) /\
  cycles cfg (snd (V50.runTicks cfg ticks g)) =
    snd (runFlags (DATA_FETCH_TIME cfg) (hasRunToday g) (times ticks)).
Proof.
  revert g. induction ticks as [| tk ticks IH]; intros g; [split; reflexivity |].
  rewrite runTicks_cons, times_cons. cbn [fst snd]. rewrite cycles_app.
  destruct (V50.currentTime (V50.result tk)) as [t |] eqn:Ht.
  - destruct (dailyCheck_flag cfg tk g t Ht) as [Hflag Hcount].
    cbn [app]. rewrite runFlags_cons. cbn [fst snd].
    destruct (IH (fst (V50.dailyCheck cfg tk g))) as [IHflag IHcount].
    rewrite IHflag, IHcount, Hflag, Hcount. split; reflexivity.
  - rewrite (dailyCheck_no_time cfg tk g Ht). cbn [fst snd app]. exact (IH g).
Qed.

(** Reading the clock text back with [timeToSeconds] gives the minute, so
    different minutes of a day read differently. *)
Lemma clock_roundtrip_seq :
  forallb (fun n => match timeToSeconds (clock (Z.of_nat n)) with
                    | Some sec => sec =? 60 * Z.of_nat n
                    | None => false
                    end) (seq 0 1440) = true.
Proof. vm_compute. reflexivity. Qed.

Lemma clock_roundtrip (minute : Z) :
  minuteOfDay minute -> timeToSeconds (clock minute) = Some (60 * minute).
Proof.
  intros Hm. unfold minuteOfDay in Hm.
  pose proof (proj1 (forallb_forall _ _) clock_roundtrip_seq (Z.to_nat minute)) as Hall.
  cbv beta in Hall. rewrite Z2Nat.id in Hall by lia.
  assert (Hin : In (Z.to_nat minute) (seq 0 1440)) by (apply in_seq; lia).
  specialize (Hall Hin).
  destruct (timeToSeconds (clock minute)) as [sec |]; [| discriminate].
  apply Z.eqb_eq in Hall. now subst sec.
Qed.

Lemma clock_inj (m m' : Z) :
  minuteOfDay m -> minuteOfDay m' -> clock m = clock m' -> m = m'.
Proof.
  intros Hm Hm' Heq.
  pose proof (clock_roundtrip m Hm) as H1. pose proof (clock_roundtrip m' Hm') as H2.
  rewrite Heq, H2 in H1.
  assert (H : 60 * m' = 60 * m) by congruence. lia.
Qed.

Lemma stepFlag_other (fetchTime : string) (flag : bool) (t : string) :
  t <> fetchTime -> snd (stepFlag fetchTime flag t) = 0%nat.
Proof.
  intros Hne. unfold stepFlag. apply String.eqb_neq in Hne. now rewrite Hne.
Qed.

Lemma stepFlag_le (fetchTime : string) (flag : bool) (t : string) :
  (snd (stepFlag fetchTime flag t) <= 1)%nat.
Proof. unfold stepFlag. destruct (_ && _); cbn [snd]; lia. Qed.

Lemma stepFlag_fetch (fetchTime : string) (flag : bool) :
  fetchTime <> "00:01" -> fst (stepFlag fetchTime flag fetchTime) = true.
Proof.
  intros Hne. unfold stepFlag. apply String.eqb_neq in Hne.
  rewrite Hne, String.eqb_refl. cbn [fst andb]. now destruct flag.
Qed.

Lemma runFlags_no_match (fetchTime : string) (flag : bool) (minutes : list Z) :
  (forall m, In m minutes -> clock m <> fetchTime) ->
  snd (runFlags fetchTime flag (map clock minutes)) = 0%nat.
Proof.
  revert flag. induction minutes as [| m minutes IH]; intros flag Hno; [reflexivity |].
  cbn [map]. rewrite runFlags_cons. cbn [snd].
  rewrite stepFlag_other by (apply Hno; now left).
  rewrite IH by (intros m' Hin; apply Hno; now right). reflexivity.
Qed.

(** Once the flag is set at the fetch minute, later ticks of the day start
    no cycle. *)
Lemma runFlags_held (fetchTime : string) (m : Z) (minutes : list Z) :
  clock m = fetchTime -> fetchTime <> "00:01" ->
  minuteOfDay m -> Forall minuteOfDay minutes ->
  Forall (Z.le m) minutes -> StronglySorted Z.le minutes ->
  snd (runFlags fetchTime true (map clock minutes)) = 0%nat.
Proof.
  intros <- Hne Hday. induction minutes as [| m' minutes IH]; intros Hmins Hge Hsorted;
    [reflexivity |].
  apply Forall_cons_iff in Hmins as [Hm' Hmins].
  apply Forall_cons_iff in Hge as [Hle Hge].
  apply StronglySorted_inv in Hsorted as [Hsorted Hhead].
  destruct (Z.eq_dec m' m) as [-> | Hdiff].
  - cbn [map]. rewrite runFlags_cons. cbn [snd].
    rewrite stepFlag_fetch by exact Hne.
    unfold stepFlag. rewrite String.eqb_refl. cbn [andb negb snd Nat.add].
    now apply IH.
  - apply runFlags_no_match. intros k Hin Hk.
    assert (Hkm : m' <= k).
    { destruct Hin as [<- | Hin]; [lia |].
      exact (proj1 (Forall_forall _ _) Hhead k Hin). }
    assert (Hkday : minuteOfDay k).
    { destruct Hin as [<- | Hin]; [exact Hm' |].
      exact (proj1 (Forall_forall _ _) Hmins k Hin). }
    apply clock_inj in Hk; [lia | exact Hkday | exact Hday].
Qed.

Lemma day_at_most_one_le (fetchTime : string) (flag : bool) (minutes : list Z) :
  fetchTime <> "00:01" ->
  Forall minuteOfDay minutes -> StronglySorted Z.le minutes ->
  (snd (runFlags fetchTime flag (map clock minutes)) <= 1)%nat.
Proof.
  intros Hne. revert flag.
  induction minutes as [| m minutes IH]; intros flag Hmins Hsorted; [cbn; lia |].
  apply Forall_cons_iff in Hmins as [Hm Hmins].
  apply StronglySorted_inv in Hsorted as [Hsorted Hhead].
  cbn [map]. rewrite runFlags_cons. cbn [snd].
  destruct (string_dec (clock m) fetchTime) as [Heq | Hdiff].
  - subst fetchTime. rewrite stepFlag_fetch by exact Hne.
    rewrite (runFlags_held (clock m) m minutes eq_refl Hne Hm Hmins Hhead Hsorted).
    pose proof (stepFlag_le (clock m) flag (clock m)). lia.
  - rewrite stepFlag_other by exact Hdiff.
    specialize (IH (fst (stepFlag fetchTime flag (clock m))) Hmins Hsorted). lia.
Qed.

Lemma day_at_most_one_lt (fetchTime : string) (flag : bool) (minutes : list Z) :
  Forall minuteOfDay minutes -> StronglySorted Z.lt minutes ->
  (snd (runFlags fetchTime flag (map clock minutes)) <= 1)%nat.
Proof.
  revert flag.
  induction minutes as [| m minutes IH]; intros flag Hmins Hsorted; [cbn; lia |].
  apply Forall_cons_iff in Hmins as [Hm Hmins].
  apply StronglySorted_inv in Hsorted as [Hsorted Hhead].
  cbn [map]. rewrite runFlags_cons. cbn [snd].
  destruct (string_dec (clock m) fetchTime) as [Heq | Hdiff].
  - rewrite runFlags_no_match.
    + pose proof (stepFlag_le fetchTime flag (clock m)). lia.
    + intros k Hin Hk.
      pose proof (proj1 (Forall_forall _ _) Hhead k Hin) as Hlt.
      pose proof (proj1 (Forall_forall _ _) Hmins k Hin) as Hkday.
      rewrite <- Heq in Hk. apply clock_inj in Hk; [lia | exact Hkday | exact Hm].
  - rewrite stepFlag_other by exact Hdiff.
    specialize (IH (fst (stepFlag fetchTime flag (clock m))) Hmins Hsorted). lia.
Qed.

(** C3.  Production trigger of version 5.0, one [dailyCheck] per tick.
    - A tick starts a cycle exactly when it reads the configured fetch time
      while [hasRunToday] is false, and never more than one; the trigger then
      sets [hasRunToday].
    - A tick that reads 00:01 leaves [hasRunToday] false.
    - Every other tick only queries the status: no cycle, globals unchanged.
    - Over the ticks of one calendar day, from any globals (so also from the
      initial ones and from those left by the day before), at most one cycle
      runs: with at most one tick per minute for every fetch time, and with
      any number of ticks per minute for every fetch time other than 00:01. *)
Theorem C3_daily_trigger (cfg : config) :
  (forall (tk : V50.tick) (g : globals),
      (cycles cfg (snd (V50.dailyCheck cfg tk g)) <= 1)%nat /\
      (cycles cfg (snd (V50.dailyCheck cfg tk g)) = 1%nat <->
       V50.currentTime (V50.result tk) = Some (DATA_FETCH_TIME cfg) /\
       hasRunToday g = false)) /\
  (forall (tk : V50.tick) (g : globals),
      V50.currentTime (V50.result tk) = Some (DATA_FETCH_TIME cfg) ->
      hasRunToday g = false ->
      hasRunToday (fst (V50.trigger cfg (V50.cycleHost tk) (DATA_FETCH_TIME cfg) g)) = true /\
      (DATA_FETCH_TIME cfg <> "00:01" ->
       hasRunToday (fst (V50.dailyCheck cfg tk g)) = true)) /\
  (forall (tk : V50.tick) (g : globals),
      V50.currentTime (V50.result tk) = Some "00:01" ->
      hasRunToday (fst (V50.dailyCheck cfg tk g)) = false) /\
  (forall (tk : V50.tick) (g : globals),
      ~ (V50.currentTime (V50.result tk) = Some (DATA_FETCH_TIME cfg) /\
         hasRunToday g = false) ->
      V50.currentTime (V50.result tk) <> Some "00:01" ->
      V50.dailyCheck cfg tk g = (g, [Sys_GetStatus])) /\
  (forall (day : list V50.tick) (g : globals),
      calendarDay Z.lt day ->
      (cycles cfg (snd (V50.runTicks cfg day g)) <= 1)%nat) /\
  (forall (day : list V50.tick) (g : globals),
      calendarDay Z.le day ->
      DATA_FETCH_TIME cfg <> "00:01" ->
      (cycles cfg (snd (V50.runTicks cfg day g)) <= 1)%nat).
Proof.
  repeat apply conj.
  - intros tk g. destruct (V50.currentTime (V50.result tk)) as [t |] eqn:Ht.
    + destruct (dailyCheck_flag cfg tk g t Ht) as [_ ->]. split; [apply stepFlag_le |].
      unfold stepFlag. cbn [snd].
      destruct (String.eqb_spec t (DATA_FETCH_TIME cfg)) as [-> | Hne];
        destruct (hasRunToday g); cbn [andb negb]; split;
        first [discriminate | intros [? ?]; congruence | intros _; split; reflexivity
              | reflexivity].
    + rewrite (dailyCheck_no_time cfg tk g Ht). cbn. split; [lia |].
      split; [discriminate | intros [? _]; discriminate].
  - intros tk g Ht Hflag. split.
    + unfold V50.trigger. rewrite String.eqb_refl, Hflag. cbn [andb negb].
      now destruct (V50.getWeatherAndCalculateDuration cfg (V50.cycleHost tk) g).
    + intros Hne. destruct (dailyCheck_flag cfg tk g _ Ht) as [-> _].
      apply stepFlag_fetch. exact Hne.
  - intros tk g Ht. destruct (dailyCheck_flag cfg tk g _ Ht) as [-> _].
    unfold stepFlag. now rewrite String.eqb_refl.
  - intros tk g Hnot Hreset.
    destruct (V50.currentTime (V50.result tk)) as [t |] eqn:Ht;
      [| now apply dailyCheck_no_time].
    unfold V50.dailyCheck, V50.trigger, V50.reset. rewrite Ht.
    assert (Hran : String.eqb t (DATA_FETCH_TIME cfg) && negb (hasRunToday g) = false).
    { destruct (String.eqb_spec t (DATA_FETCH_TIME cfg)) as [-> | _]; [| reflexivity].
      destruct (hasRunToday g); [reflexivity |]. exfalso. apply Hnot. now split. }
    rewrite Hran.
    assert (Hmid : String.eqb t "00:01" = false)
      by (apply String.eqb_neq; congruence).
    now rewrite Hmid.
  - intros day g [minutes [Htimes [Hmins Hsorted]]].
    rewrite (proj2 (runTicks_flags cfg day g)), Htimes.
    now apply day_at_most_one_lt.
  - intros day g [minutes [Htimes [Hmins Hsorted]]] Hne.
    rewrite (proj2 (runTicks_flags cfg day g)), Htimes.
    now apply day_at_most_one_le.
Qed.

Lemma C3_daily_trigger_witness :
  let h := hostWith (repeat 5%Q 48) in
  let day := [tickAt "18:59" h; tickAt "19:00" h; tickAt "19:00" h; tickAt "19:01" h] in
  (calendarDay Z.le day /\ DATA_FETCH_TIME CONFIG <> "00:01" /\
   (cycles CONFIG (snd (V50.runTicks CONFIG day initialGlobals)) <= 1)%nat) /\
  (V50.currentTime (V50.result (tickAt "19:00" h)) = Some (DATA_FETCH_TIME CONFIG) /\
   hasRunToday initialGlobals = false /\
   hasRunToday (fst (V50.dailyCheck CONFIG (tickAt "19:00" h) initialGlobals)) = true).
Proof.
  intros h day.
  assert (Hday : calendarDay Z.le day).
  { exists [1139; 1140; 1140; 1141]. split; [reflexivity |]. split.
    - repeat constructor; discriminate.
    - repeat constructor; discriminate. }
  split.
  - split; [exact Hday |]. split; [discriminate |].
    apply (proj2 (proj2 (proj2 (proj2 (proj2 (C3_daily_trigger CONFIG))))) day initialGlobals
             Hday).
    discriminate.
  - split; [reflexivity |]. split; [reflexivity |].
    apply (proj1 (proj2 (C3_daily_trigger CONFIG)) (tickAt "19:00" h) initialGlobals
             eq_refl eq_refl).
    discriminate.
Defined.

(** When the fetch time is itself 00:01, the tick that starts the cycle also
    resets the flag, so a second tick within that minute starts another. *)
Lemma two_cycles_when_fetch_time_is_00_01 :
  let cfg := configWith [0] "" "" false "00:01" in
  let h := hostWith (repeat 5%Q 48) in
  hasRunToday (fst (V50.dailyCheck cfg (tickAt "00:01" h) initialGlobals)) = false /\
  cycles cfg (snd (V50.runTicks cfg [tickAt "00:01" h; tickAt "00:01" h] initialGlobals)) = 2%nat.
Proof. split; reflexivity. Qed.


(** * Further properties of the code *)

(** ** Times of day *)

Lemma secondsToTime_minute (sec : Z) :
  0 <= sec -> secondsToTime (Some sec) = clock (sec / 60).
Proof.
  intros Hs. unfold clock, secondsToTime, Js.rem.
  rewrite !Z.rem_mod_nonneg by (try apply Z.mul_nonneg_nonneg; try apply Z.div_pos; lia).
  assert (Hh : 60 * (sec / 60) / 3600 = sec / 3600)
    by (Z.to_euclidean_division_equations; lia).
  assert (Hm : (60 * (sec / 60)) mod 3600 / 60 = sec mod 3600 / 60)
    by (Z.to_euclidean_division_equations; lia).
  now rewrite Hh, Hm.
Qed.

(** [timeToSeconds] reads the text of [secondsToTime] back as the start of
    its minute, for every second of the day; the seconds within the minute
    are lost. *)
Theorem timeToSeconds_secondsToTime (sec : Z) :
  0 <= sec < 86400 ->
  timeToSeconds (secondsToTime (Some sec)) = Some (sec - sec mod 60).
Proof.
  intros Hs. rewrite secondsToTime_minute by lia.
  rewrite clock_roundtrip by (unfold minuteOfDay; Z.to_euclidean_division_equations; lia).
  f_equal. Z.to_euclidean_division_equations; lia.
Qed.

Lemma timeToSeconds_secondsToTime_witness :
  0 <= 79230 < 86400 /\
  timeToSeconds (secondsToTime (Some 79230)) = Some (79230 - 79230 mod 60).
Proof.
  split; [lia |]. apply (timeToSeconds_secondsToTime 79230). lia.
Defined.

Lemma split_no_separator (c : ascii) (s : string) :
  occurs c s = false -> Js.split c s = [s].
Proof.
  induction s as [| a s IH]; [reflexivity |].
  cbn [occurs Js.split]. intros Hno. apply orb_false_iff in Hno as [Ha Hs].
  now rewrite Ha, (IH Hs).
Qed.

(** A time text without a colon is not rejected: [timeToSeconds] gives NaN,
    and version 5.0 in production mode then asks, for a positive duration, for
    one timed action per switch with the time specification
    ["0 NaN NaN * * *"]. *)
Theorem window_end_without_colon (cfg : config) (h : host) (g : globals) :
  occurs ":" (CHARGING_WINDOW_END cfg) = false ->
  timeToSeconds (CHARGING_WINDOW_END cfg) = None /\
  (IS_TEST_MODE cfg = false -> list_err h = 0 -> delete_err h = 0 ->
   0 < nextChargingDurationSeconds g ->
   filter isCreate (V50.scheduleCharging cfg h g) =
     map (fun switchId =>
            Schedule_Create None "0 NaN NaN * * *" switchId (nextChargingDurationSeconds g))
         (SWITCH_IDS cfg)).
Proof.
  intros Hno.
  assert (Hnan : timeToSeconds (CHARGING_WINDOW_END cfg) = None).
  { unfold timeToSeconds. now rewrite (split_no_separator _ _ Hno). }
  split; [exact Hnan |]. intros Hmode Hlist Hdel Hd.
  rewrite (V50_scheduleCharging_creates cfg h g Hmode Hlist Hdel Hd), Hnan. reflexivity.
Qed.

Lemma window_end_without_colon_witness :
  let cfg := {| SWITCH_IDS := [0; 1]; CHARGING_WINDOW_START := "22:00";
                CHARGING_WINDOW_END := "0600"; LATITUDE := "52.2768"; LONGITUDE := "7.719";
                START_TEMP := 15; SLOPE := 1 # 2; MAX_RUNTIME_HOURS := 8;
                FALLBACK_HOURS_Q1 := 6; FALLBACK_HOURS_Q2 := 2; FALLBACK_HOURS_Q3 := 0;
                FALLBACK_HOURS_Q4 := 5; TELEGRAM_BOT_TOKEN := ""; TELEGRAM_CHAT_ID := "";
                SEND_TELEGRAM_SCHEDULE_LIST := false; SEND_TELEGRAM_NEW_SCHEDULE := false;
                IS_TEST_MODE := false; TEST_INTERVAL_MINUTES := 5;
                TIMEZONE := "Europe/Berlin"; DATA_FETCH_TIME := "19:00" |} in
  let g := set_nextChargingDurationSeconds initialGlobals 18000 in
  occurs ":" (CHARGING_WINDOW_END cfg) = false /\
  filter isCreate (V50.scheduleCharging cfg (hostAnswering 0 0 (fun _ => 0)) g) =
    [Schedule_Create None "0 NaN NaN * * *" 0 18000;
     Schedule_Create None "0 NaN NaN * * *" 1 18000].
Proof.
  intros cfg g. split; [reflexivity |].
  apply (proj2 (window_end_without_colon cfg (hostAnswering 0 0 (fun _ => 0)) g eq_refl));
    reflexivity.
Defined.

(** ** Time specifications *)

Lemma cron_minutes_seq :
  forallb (fun n =>
             let m := Z.of_nat n in
             match cronHourMinute (V50.cronExpr (Some (60 * m))),
                   cronHourMinute (cronExpr_4_2 (clock m)) with
             | Some (h5, m5), Some (h4, m4) =>
                 (h5 =? m / 60) && (m5 =? m mod 60) && (h4 =? m / 60) && (m4 =? m mod 60)
             | _, _ => false
             end) (seq 0 1440) = true.
Proof. vm_compute. reflexivity. Qed.

Lemma cronExpr_minute (sec : Z) :
  0 <= sec -> V50.cronExpr (Some sec) = V50.cronExpr (Some (60 * (sec / 60))).
Proof.
  intros Hs. unfold V50.cronExpr, Js.rem. cbn [option_map].
  rewrite !Z.rem_mod_nonneg by (try apply Z.mul_nonneg_nonneg; try apply Z.div_pos; lia).
  assert (Hh : 60 * (sec / 60) / 3600 = sec / 3600)
    by (Z.to_euclidean_division_equations; lia).
  assert (Hm : (60 * (sec / 60)) mod 3600 / 60 = sec mod 3600 / 60)
    by (Z.to_euclidean_division_equations; lia).
  now rewrite Hh, Hm.
Qed.

(** For every start within the day, the time specification of either version
    fires at the hour and the minute of the start: version 5.0 writes them
    without, version 4.2 with leading zeros, and both drop the seconds. *)
Theorem cron_fires_at_minute_of_start (sec : Z) :
  0 <= sec < 86400 ->
  cronHourMinute (V50.cronExpr (Some sec)) = Some (sec / 3600, sec mod 3600 / 60) /\
  cronHourMinute (cronExpr_4_2 (secondsToTime (Some sec))) =
    Some (sec / 3600, sec mod 3600 / 60).
Proof.
  intros Hs. rewrite cronExpr_minute, secondsToTime_minute by lia.
  set (m := sec / 60).
  assert (Hm : 0 <= m < 1440) by (unfold m; Z.to_euclidean_division_equations; lia).
  pose proof (proj1 (forallb_forall _ _) cron_minutes_seq (Z.to_nat m)) as Hall.
  cbv beta zeta in Hall. rewrite Z2Nat.id in Hall by lia.
  specialize (Hall ltac:(apply in_seq; lia)).
  assert (Hh : sec / 3600 = m / 60) by (unfold m; Z.to_euclidean_division_equations; lia).
  assert (Hmin : sec mod 3600 / 60 = m mod 60)
    by (unfold m; Z.to_euclidean_division_equations; lia).
  rewrite Hh, Hmin.
  destruct (cronHourMinute (V50.cronExpr (Some (60 * m)))) as [[h5 m5] |]; [| discriminate].
  destruct (cronHourMinute (cronExpr_4_2 (clock m))) as [[h4 m4] |]; [| discriminate].
  apply andb_prop in Hall as [Hall H4]. apply andb_prop in Hall as [Hall H3].
  apply andb_prop in Hall as [H1 H2].
  apply Z.eqb_eq in H1, H2, H3, H4. subst. split; reflexivity.
Qed.

Lemma cron_fires_at_minute_of_start_witness :
  0 <= 3642 < 86400 /\
  cronHourMinute (V50.cronExpr (Some 3642)) = Some (3642 / 3600, 3642 mod 3600 / 60) /\
  cronHourMinute (cronExpr_4_2 (secondsToTime (Some 3642))) =
    Some (3642 / 3600, 3642 mod 3600 / 60).
Proof.
  split; [lia |]. apply (cron_fires_at_minute_of_start 3642). lia.
Defined.

(** The time specification that [scheduleCharging] of version 4.2 sends is
    [cronExpr_4_2] of the start text. *)
Lemma V42_scheduleCharging_timespec (cfg : config) (h : host) (g : globals) (c : call) :
  In c (snd (V42.scheduleCharging cfg h g)) -> isCreate c = true ->
  exists id duration,
    c = Schedule_Create (Some id)
          (cronExpr_4_2 (secondsToTime (snd (V42.backwardSchedule cfg
                                               (nextChargingDurationSeconds g)))))
          id duration.
Proof.
  unfold V42.scheduleCharging.
  destruct (V42.backwardSchedule cfg (nextChargingDurationSeconds g)) as [d st].
  destruct (IS_TEST_MODE cfg); cbn [snd]; [contradiction |].
  intros Hin Hc. apply in_app_or in Hin as [Hin | Hin].
  - apply in_flat_map in Hin as [id [_ Hin]].
    destruct Hin as [<- | Hin]; [discriminate |].
    destruct (d >? 0); [| contradiction].
    destruct Hin as [<- | []]. exists id, d. reflexivity.
  - apply in_flat_map in Hin as [id [_ Hin]].
    assert (Hf : filter isCreate
                   (if d >? 0
                    then if create_err h id =? 0 then []
                         else V42.notify cfg ("Failed to create schedule for Switch " ++
                                              Js.String_ id)
                    else []) = []).
    { destruct (d >? 0); [| reflexivity].
      destruct (create_err h id =? 0); [reflexivity | apply notify_isCreate]. }
    assert (Hc' : In c (filter isCreate
                          (if d >? 0
                           then if create_err h id =? 0 then []
                                else V42.notify cfg ("Failed to create schedule for Switch " ++
                                                     Js.String_ id)
                           else []))) by (apply filter_In; now split).
    rewrite Hf in Hc'. contradiction.
Qed.

(** ** Percent-encoding *)

Lemma string_append_assoc (x y z : string) : (x ++ y) ++ z = x ++ y ++ z.
Proof.
  induction x as [| a x IH]; [reflexivity |]. cbn [append]. now rewrite IH.
Qed.

Lemma join_split_append (c : ascii) (r x y : string) :
  Js.join r (Js.split c (x ++ y)) =
    Js.join r (Js.split c x) ++ Js.join r (Js.split c y).
Proof.
  induction x as [| a x IH]; [reflexivity |].
  change (String a x ++ y) with (String a (x ++ y)).
  rewrite !join_split_String, IH.
  destruct (Ascii.eqb a c); [| reflexivity].
  now rewrite string_append_assoc.
Qed.

Lemma V42_urlEncode_app (x y : string) :
  V42.urlEncode (x ++ y) = V42.urlEncode x ++ V42.urlEncode y.
Proof.
  unfold V42.urlEncode. cbv zeta. repeat rewrite join_split_append. reflexivity.
Qed.

Lemma V50_urlEncode_app (x y : string) :
  V50.urlEncode (x ++ y) = V50.urlEncode x ++ V50.urlEncode y.
Proof.
  unfold V50.urlEncode. cbv zeta. repeat rewrite join_split_append. reflexivity.
Qed.

(** [urlEncode] works character by character: encoding a concatenation is
    concatenating the encodings, in both versions. *)
Theorem urlEncode_append (x y : string) :
  V42.urlEncode (x ++ y) = V42.urlEncode x ++ V42.urlEncode y /\
  V50.urlEncode (x ++ y) = V50.urlEncode x ++ V50.urlEncode y.
Proof. split; [apply V42_urlEncode_app | apply V50_urlEncode_app]. Qed.

Lemma V42_urlDecode_char (a : ascii) (t : string) :
  urlDecode (V42.urlEncode (String a "") ++ t) = String a (urlDecode t).
Proof. destruct a as [[] [] [] [] [] [] [] []]; reflexivity. Qed.

(** Version 4.2 encodes the percent sign first, so percent-decoding gives
    every message back. *)
Theorem V42_urlDecode_urlEncode (s : string) : urlDecode (V42.urlEncode s) = s.
Proof.
  induction s as [| a s IH]; [reflexivity |].
  change (String a s) with (String a "" ++ s) at 1.
  rewrite V42_urlEncode_app, V42_urlDecode_char. now rewrite IH.
Qed.

Lemma V50_urlDecode_char (a : ascii) (t : string) :
  Ascii.eqb a "%" = false ->
  urlDecode (V50.urlEncode (String a "") ++ t) = String a (urlDecode t).
Proof. destruct a as [[] [] [] [] [] [] [] []]; intros H; try discriminate H; reflexivity. Qed.

(** Version 5.0 leaves the percent sign as it is: percent-decoding gives the
    message back when it holds no percent sign, and need not otherwise. *)
Theorem V50_urlDecode_urlEncode :
  (forall s : string, occurs "%" s = false -> urlDecode (V50.urlEncode s) = s) /\
  (forall s : string,
      urlDecode (V50.urlEncode ("%41" ++ s)) = String "A" (urlDecode (V50.urlEncode s))).
Proof.
  split.
  - induction s as [| a s IH]; [reflexivity |].
    cbn [occurs]. intros Hno. apply orb_false_iff in Hno as [Ha Hs].
    change (String a s) with (String a "" ++ s) at 1.
    rewrite V50_urlEncode_app, (V50_urlDecode_char a _ Ha). now rewrite IH.
  - intros s. rewrite V50_urlEncode_app. reflexivity.
Qed.

Lemma V50_urlDecode_urlEncode_witness :
  occurs "%" ("Weather API unreachable. Code: -1" ++ nl) = false /\
  urlDecode (V50.urlEncode ("Weather API unreachable. Code: -1" ++ nl)) =
    "Weather API unreachable. Code: -1" ++ nl.
Proof.
  split; [reflexivity |].
  apply (proj1 V50_urlDecode_urlEncode). reflexivity.
Defined.

(** The result of [urlEncode] of version 4.2 holds none of the fifteen
    characters it replaces after the percent sign. *)
Theorem V42_urlEncode_reserved (s : string) (c : ascii) :
  In c [" "; "&"; "+"; "?"; "="; "#"; "/"; ":"; ";"; "<"; ">"; ascii_of_nat 34; "'";
        "."; ","]%char ->
  occurs c (V42.urlEncode s) = false.
Proof.
  intros Hc. unfold V42.urlEncode.
  repeat (destruct Hc as [<- | Hc]; [encoded |]). contradiction.
Qed.

Lemma V42_urlEncode_reserved_witness :
  In "&"%char [" "; "&"; "+"; "?"; "="; "#"; "/"; ":"; ";"; "<"; ">"; ascii_of_nat 34; "'";
               "."; ","]%char /\
  occurs "&" (V42.urlEncode "a&b=c") = false.
Proof.
  split; [right; left; reflexivity |].
  apply (V42_urlEncode_reserved "a&b=c" "&"). right. left. reflexivity.
Defined.

(** Version 5.0 does not encode the characters that structure a query
    string: an ampersand, plus, hash, question mark, equals sign or slash of
    the message reaches the URL as it is. *)
Theorem V50_urlEncode_passes_query_characters (s : string) (c : ascii) :
  In c ["&"; "+"; "#"; "?"; "="; "/"]%char ->
  occurs c (V50.urlEncode s) = occurs c s.
Proof.
  intros Hc. unfold V50.urlEncode.
  repeat (destruct Hc as [<- | Hc]; [encoded |]). contradiction.
Qed.

Lemma V50_urlEncode_passes_query_characters_witness :
  In "&"%char ["&"; "+"; "#"; "?"; "="; "/"]%char /\
  occurs "&" (V50.urlEncode "a&b=c") = occurs "&" "a&b=c".
Proof.
  split; [left; reflexivity |].
  apply (V50_urlEncode_passes_query_characters "a&b=c" "&"). left. reflexivity.
Defined.

(** ** Durations *)

(** The colder the forecast, the longer the charge: with a slope that is not
    negative, the hours of [calculateChargingDuration] never grow with the
    average temperature. *)
Theorem chargingHours_monotone (cfg : config) (cold warm : Q) :
  (0 <= SLOPE cfg)%Q -> (cold <= warm)%Q ->
  (chargingHours cfg warm <= chargingHours cfg cold)%Q.
Proof.
  intros Hslope Hle. unfold chargingHours.
  destruct (Qlt_le_dec cold (START_TEMP cfg)) as [Hc | Hc];
    destruct (Qlt_le_dec warm (START_TEMP cfg)) as [Hw | Hw]; try lra.
  - assert (Hx : ((START_TEMP cfg - warm) * SLOPE cfg <=
                  (START_TEMP cfg - cold) * SLOPE cfg)%Q)
      by (apply Qmult_le_compat_r; [lra | exact Hslope]).
    set (x := ((START_TEMP cfg - warm) * SLOPE cfg)%Q) in *.
    set (y := ((START_TEMP cfg - cold) * SLOPE cfg)%Q) in *.
    clearbody x y.
    repeat match goal with
      | |- context [Qlt_le_dec (MAX_RUNTIME_HOURS cfg) ?b] =>
          destruct (Qlt_le_dec (MAX_RUNTIME_HOURS cfg) b)
      end;
    repeat match goal with
      | |- context [Qlt_le_dec ?a ?b] => destruct (Qlt_le_dec a b)
      end; lra.
  - assert (Hy : (0 <= (START_TEMP cfg - cold) * SLOPE cfg)%Q)
      by (apply Qmult_le_0_compat; [lra | exact Hslope]).
    set (y := ((START_TEMP cfg - cold) * SLOPE cfg)%Q) in *. clearbody y.
    repeat match goal with
      | |- context [Qlt_le_dec (MAX_RUNTIME_HOURS cfg) ?b] =>
          destruct (Qlt_le_dec (MAX_RUNTIME_HOURS cfg) b)
      end;
    repeat match goal with
      | |- context [Qlt_le_dec ?a ?b] => destruct (Qlt_le_dec a b)
      end; lra.
Qed.

Lemma chargingHours_monotone_witness :
  (0 <= SLOPE CONFIG)%Q /\ (-3 <= 7)%Q /\
  (chargingHours CONFIG 7 <= chargingHours CONFIG (-3))%Q.
Proof.
  split; [discriminate |]. split; [discriminate |].
  apply (chargingHours_monotone CONFIG (-3) 7); discriminate.
Defined.

Lemma chargingHours_le_max (cfg : config) (avgTemp : Q) :
  (0 <= MAX_RUNTIME_HOURS cfg)%Q ->
  (0 <= chargingHours cfg avgTemp <= MAX_RUNTIME_HOURS cfg)%Q.
Proof.
  intros Hmax. unfold chargingHours.
  set (x := if Qlt_le_dec avgTemp (START_TEMP cfg)
            then ((START_TEMP cfg - avgTemp) * SLOPE cfg)%Q else 0%Q). clearbody x.
  destruct (Qlt_le_dec (MAX_RUNTIME_HOURS cfg) x);
    repeat match goal with
      | |- context [Qlt_le_dec ?a ?b] => destruct (Qlt_le_dec a b)
      end; lra.
Qed.

Lemma Math_round_bounds (x bound : Q) :
  (0 <= x <= bound)%Q -> 0 <= Js.Math_round (x * 3600) <= Js.Math_round (bound * 3600).
Proof.
  intros [Hx Hb]. unfold Js.Math_round. split.
  - change 0 with (Qfloor (1 # 2)). apply Qfloor_resp_le. lra.
  - apply Qfloor_resp_le. lra.
Qed.

(** Whatever the forecast, the duration that [calculateChargingDuration]
    stores lies between 0 and the rounded seconds of [MAX_RUNTIME_HOURS]. *)
Theorem calculateChargingDuration_bounds
    (cfg : config) (h : host) (avgTemp : Q) (g : globals) :
  (0 <= MAX_RUNTIME_HOURS cfg)%Q ->
  0 <= nextChargingDurationSeconds (fst (V50.calculateChargingDuration cfg h avgTemp g))
    <= Js.Math_round (MAX_RUNTIME_HOURS cfg * 3600).
Proof.
  intros Hmax. cbn [V50.calculateChargingDuration fst set_nextChargingDurationSeconds
                    nextChargingDurationSeconds].
  apply Math_round_bounds. now apply chargingHours_le_max.
Qed.

Lemma calculateChargingDuration_bounds_witness :
  (0 <= MAX_RUNTIME_HOURS CONFIG)%Q /\
  0 <= nextChargingDurationSeconds
         (fst (V50.calculateChargingDuration CONFIG (hostWith []) (-40) initialGlobals))
    <= Js.Math_round (MAX_RUNTIME_HOURS CONFIG * 3600).
Proof.
  split; [discriminate |].
  apply (calculateChargingDuration_bounds CONFIG (hostWith []) (-40) initialGlobals).
  discriminate.
Defined.

Lemma slice_tomorrow (today tomorrow later : list Q) :
  List.length today = 24%nat -> List.length tomorrow = 24%nat ->
  slice_24_48 (today ++ tomorrow ++ later) = tomorrow.
Proof.
  intros Ht Hm. unfold slice_24_48.
  rewrite <- Ht, skipn_app, skipn_all, Nat.sub_diag. cbn [app skipn].
  rewrite Ht, <- Hm, firstn_app, firstn_all, Nat.sub_diag. cbn [firstn]. apply app_nil_r.
Qed.

(** Only the samples at the offsets 24-47 count: with a good answer, the
    cycle of either version is [calculateChargingDuration] at the average of
    these 24 samples, whatever the 24 samples before them and the samples
    after them are. *)
Theorem forecast_uses_tomorrow_only
    (cfg : config) (h : host) (g : globals) (res : httpResponse)
    (today tomorrow later : list Q) :
  forecast_err h = 0 -> forecast_res h = Some res -> code res = 200 ->
  body res = Hourly (today ++ tomorrow ++ later) ->
  List.length today = 24%nat -> List.length tomorrow = 24%nat ->
  V50.getWeatherAndCalculateDuration cfg h g =
    (fst (V50.calculateChargingDuration cfg h (average tomorrow) g),
     HTTP_GET (weatherUrl cfg) ::
     snd (V50.calculateChargingDuration cfg h (average tomorrow) g)) /\
  V42.getWeatherAndCalculateDuration cfg h g =
    (fst (V42.calculateChargingDuration cfg h (average tomorrow) g),
     HTTP_GET (weatherUrl cfg) ::
     snd (V42.calculateChargingDuration cfg h (average tomorrow) g)).
Proof.
  intros Herr Hres Hcode Hbody Ht Hm.
  unfold V50.getWeatherAndCalculateDuration, V42.getWeatherAndCalculateDuration.
  rewrite Hres, Herr, Hcode, Hbody, (slice_tomorrow today tomorrow later Ht Hm), Hm.
  cbn [Z.eqb negb orb Nat.ltb Nat.leb].
  split.
  - now destruct (V50.calculateChargingDuration cfg h (average tomorrow) g).
  - now destruct (V42.calculateChargingDuration cfg h (average tomorrow) g).
Qed.

Lemma forecast_uses_tomorrow_only_witness :
  let h := hostWith (repeat 30%Q 24 ++ repeat 5%Q 24 ++ repeat (-20)%Q 24) in
  forecast_err h = 0 /\
  V50.getWeatherAndCalculateDuration CONFIG h initialGlobals =
    (fst (V50.calculateChargingDuration CONFIG h (average (repeat 5%Q 24)) initialGlobals),
     HTTP_GET (weatherUrl CONFIG) ::
     snd (V50.calculateChargingDuration CONFIG h (average (repeat 5%Q 24)) initialGlobals)).
Proof.
  intros h. split; [reflexivity |].
  apply (proj1 (forecast_uses_tomorrow_only CONFIG h initialGlobals
                  {| code := 200;
                     body := Hourly (repeat 30%Q 24 ++ repeat 5%Q 24 ++ repeat (-20)%Q 24) |}
                  (repeat 30%Q 24) (repeat 5%Q 24) (repeat (-20)%Q 24)
                  eq_refl eq_refl eq_refl eq_refl eq_refl eq_refl)).
Defined.

(** ** The backward scheduler of version 4.2, continued *)

Lemma start_cases (we d : Z) :
  0 <= we < 86400 -> 0 <= d < we + 86400 ->
  d <= we /\ (we - d + 86400) mod 86400 = we - d \/
  we < d /\ (we - d + 86400) mod 86400 = we - d + 86400.
Proof.
  intros Hwe Hd. destruct (Z_le_gt_dec d we).
  - left. split; [assumption |].
    rewrite <- (Z.add_mod_idemp_r _ 86400), Z.mod_same, Z.add_0_r by lia.
    apply Z.mod_small. lia.
  - right. split; [lia |]. apply Z.mod_small. lia.
Qed.

Lemma backwardSchedule_positive_span (cfg : config) (ws we required : Z) :
  timeToSeconds (CHARGING_WINDOW_START cfg) = Some ws ->
  timeToSeconds (CHARGING_WINDOW_END cfg) = Some we ->
  inDay ws -> inDay we -> 0 < span ws we -> 0 <= required ->
  exists start finalDuration,
    V42.backwardSchedule cfg required = (finalDuration, Some start) /\
    0 < finalDuration <= span ws we /\
    inDay start /\ insideWindow ws we start.
Proof.
  unfold inDay, insideWindow. intros Hs He Hws Hwe Hpos Hreq.
  rewrite (backwardSchedule_parsed cfg ws we required Hs He). cbv zeta.
  set (d := if span ws we <? required then span ws we else required).
  assert (Hd : 0 <= d <= span ws we /\ (d = required \/ d = span ws we))
    by (unfold d; destruct (Z.ltb_spec (span ws we) required); lia).
  assert (Hw : span ws we < we + 86400 \/ span ws we <= we)
    by (unfold span; destruct (Z.ltb_spec we ws); lia).
  assert (Hdw : 0 <= d < we + 86400) by lia.
  rewrite rem_is_mod by lia.
  destruct (start_cases we d Hwe Hdw) as [[Hle Hmod] | [Hgt Hmod]]; rewrite Hmod;
    unfold span in *; destruct (Z.ltb_spec we ws);
    match goal with
    | |- context [(?a <=? ?b) || (?c <? ?e)] =>
        destruct (Z.leb_spec a b); destruct (Z.ltb_spec c e)
    | |- context [(?a <=? ?b) && (?c <? ?e)] =>
        destruct (Z.leb_spec a b); destruct (Z.ltb_spec c e)
    end;
    match goal with
    | |- context [0 <? ?w] => destruct (Z.ltb_spec 0 w)
    end; cbn [negb andb orb];
    eexists; eexists; (split; [reflexivity |]); lia.
Qed.

(** For a window of positive span and a required duration that is not
    negative, the scheduler of version 4.2 always returns a positive duration
    of at most the span and a start within the day that passes the window
    test of lines 165-168. *)
Theorem backwardSchedule_inside_window (cfg : config) (ws we required : Z) :
  timeToSeconds (CHARGING_WINDOW_START cfg) = Some ws ->
  timeToSeconds (CHARGING_WINDOW_END cfg) = Some we ->
  inDay ws -> inDay we -> 0 < span ws we -> 0 <= required ->
  exists start finalDuration,
    V42.backwardSchedule cfg required = (finalDuration, Some start) /\
    0 < finalDuration <= span ws we /\
    inDay start /\ insideWindow ws we start.
Proof. exact (backwardSchedule_positive_span cfg ws we required). Qed.

Lemma backwardSchedule_inside_window_witness :
  timeToSeconds (CHARGING_WINDOW_START CONFIG_4_2) = Some 79200 /\
  timeToSeconds (CHARGING_WINDOW_END CONFIG_4_2) = Some 21600 /\
  inDay 79200 /\ inDay 21600 /\ 0 < span 79200 21600 /\ 0 <= 12345 /\
  exists start finalDuration,
    V42.backwardSchedule CONFIG_4_2 12345 = (finalDuration, Some start) /\
    0 < finalDuration <= span 79200 21600 /\
    inDay start /\ insideWindow 79200 21600 start.
Proof.
  split; [reflexivity |]. split; [reflexivity |].
  split; [unfold inDay; lia |]. split; [unfold inDay; lia |].
  split; [reflexivity |]. split; [lia |].
  apply (backwardSchedule_inside_window CONFIG_4_2 79200 21600 12345);
    first [reflexivity | unfold inDay; lia | lia].
Defined.

Lemma backwardSchedule_idempotent (cfg : config) (ws we required : Z) :
  timeToSeconds (CHARGING_WINDOW_START cfg) = Some ws ->
  timeToSeconds (CHARGING_WINDOW_END cfg) = Some we ->
  inDay ws -> inDay we ->
  V42.backwardSchedule cfg (fst (V42.backwardSchedule cfg required)) =
    V42.backwardSchedule cfg required.
Proof.
  unfold inDay. intros Hs He Hws Hwe.
  rewrite (backwardSchedule_parsed cfg ws we required Hs He). cbv zeta.
  set (w := span ws we).
  set (d := if w <? required then w else required).
  assert (Hd : d <= w) by (unfold d; destruct (Z.ltb_spec w required); lia).
  set (s := Js.rem (we - d + 86400) 86400).
  match goal with
  | |- context [if negb ?b && (0 <? w) then _ else _] =>
      destruct (negb b && (0 <? w)) eqn:Hb
  end; cbn [fst]; rewrite (backwardSchedule_parsed cfg _ _ _ Hs He); cbv zeta; fold w.
  - apply andb_prop in Hb as [_ Hpos]. apply Z.ltb_lt in Hpos.
    rewrite Z.ltb_irrefl.
    assert (Hstart : Js.rem (we - w + 86400) 86400 = ws).
    { rewrite rem_is_mod by (unfold w, span; destruct (Z.ltb_spec we ws); lia).
      unfold w, span. destruct (Z.ltb_spec we ws).
      - replace (we - (86400 - ws + we) + 86400) with ws by lia. apply Z.mod_small; lia.
      - replace (we - (we - ws) + 86400) with (ws + 86400) by lia.
        rewrite <- (Z.add_mod_idemp_r _ 86400), Z.mod_same, Z.add_0_r by lia.
        apply Z.mod_small; lia. }
    rewrite Hstart.
    match goal with
    | |- context [if negb ?b && (0 <? w) then _ else _] => destruct (negb b && (0 <? w))
    end; reflexivity.
  - assert (Hkeep : (w <? d) = false) by (apply Z.ltb_ge; exact Hd).
    rewrite Hkeep. fold s. now rewrite Hb.
Qed.

(** Running [scheduleCharging] of version 4.2 again, from the globals it
    left, changes nothing and issues the same calls: the final duration it
    stored is a fixed point of its window arithmetic. *)
Theorem V42_scheduleCharging_idempotent
    (cfg : config) (h : host) (g : globals) (ws we : Z) :
  timeToSeconds (CHARGING_WINDOW_START cfg) = Some ws ->
  timeToSeconds (CHARGING_WINDOW_END cfg) = Some we ->
  inDay ws -> inDay we ->
  V42.scheduleCharging cfg h (fst (V42.scheduleCharging cfg h g)) =
    V42.scheduleCharging cfg h g.
Proof.
  intros Hs He Hws Hwe.
  pose proof (backwardSchedule_idempotent cfg ws we (nextChargingDurationSeconds g)
                Hs He Hws Hwe) as Hidem.
  rewrite V42_scheduleCharging_globals. unfold V42.scheduleCharging.
  cbn [nextChargingDurationSeconds set_nextChargingDurationSeconds]. rewrite Hidem.
  destruct (V42.backwardSchedule cfg (nextChargingDurationSeconds g)) as [d st].
  cbn [fst lastAvgTemp hasRunToday]. reflexivity.
Qed.

Lemma V42_scheduleCharging_idempotent_witness :
  let g := set_nextChargingDurationSeconds initialGlobals 36000 in
  let h := hostWith [] in
  timeToSeconds (CHARGING_WINDOW_START CONFIG_4_2_production) = Some 79200 /\
  timeToSeconds (CHARGING_WINDOW_END CONFIG_4_2_production) = Some 21600 /\
  inDay 79200 /\ inDay 21600 /\
  V42.scheduleCharging CONFIG_4_2_production h
    (fst (V42.scheduleCharging CONFIG_4_2_production h g)) =
    V42.scheduleCharging CONFIG_4_2_production h g.
Proof.
  intros g h. split; [reflexivity |]. split; [reflexivity |].
  split; [unfold inDay; lia |]. split; [unfold inDay; lia |].
  apply (V42_scheduleCharging_idempotent CONFIG_4_2_production h g 79200 21600);
    first [reflexivity | unfold inDay; lia].
Defined.

(** ** The reconciler of version 5.0, continued *)

(** Version 5.0 asks for a timed action only after [Schedule.List] and
    [Schedule.DeleteAll] both succeeded and only for a positive duration:
    every [Schedule.Create] of [scheduleCharging] is for a configured switch,
    carries the stored duration and the start counted back from the window
    end, and comes after the [Schedule.DeleteAll], before which no
    [Schedule.Create] is issued. *)
Theorem V50_create_only_after_delete (cfg : config) (h : host) (g : globals) (c : call) :
  In c (V50.scheduleCharging cfg h g) -> isCreate c = true ->
  IS_TEST_MODE cfg = false /\ list_err h = 0 /\ delete_err h = 0 /\
  0 < nextChargingDurationSeconds g /\
  (exists switchId,
      In switchId (SWITCH_IDS cfg) /\
      c = Schedule_Create None
            (V50.cronExpr (dynamicStartSeconds (timeToSeconds (CHARGING_WINDOW_END cfg))
                                               (nextChargingDurationSeconds g)))
            switchId (nextChargingDurationSeconds g)) /\
  (exists before after,
      V50.scheduleCharging cfg h g = (before ++ Schedule_DeleteAll None :: after)%list /\
      filter isCreate before = [] /\ In c after).
Proof.
  intros Hin Hc.
  assert (Hfc : In c (filter isCreate (V50.scheduleCharging cfg h g)))
    by (apply filter_In; now split).
  assert (Hmode : IS_TEST_MODE cfg = false).
  { destruct (IS_TEST_MODE cfg) eqn:Hm; [| reflexivity].
    rewrite V50_no_create_unless in Hfc by now left. contradiction. }
  assert (Hlist : list_err h = 0).
  { destruct (Z.eq_dec (list_err h) 0) as [He | Hne]; [exact He |].
    rewrite V50_no_create_unless in Hfc by (right; now left). contradiction. }
  assert (Hdel : delete_err h = 0).
  { destruct (Z.eq_dec (delete_err h) 0) as [He | Hne]; [exact He |].
    rewrite V50_no_create_unless in Hfc by (right; right; now left). contradiction. }
  assert (Hd : 0 < nextChargingDurationSeconds g).
  { destruct (Z_lt_le_dec 0 (nextChargingDurationSeconds g)) as [Hlt | Hle]; [exact Hlt |].
    rewrite V50_no_create_unless in Hfc by (right; right; now right). contradiction. }
  repeat (split; [assumption |]).
  rewrite (V50_scheduleCharging_creates cfg h g Hmode Hlist Hdel Hd) in Hfc.
  apply in_map_iff in Hfc as [switchId [Heq Hid]].
  split; [exists switchId; split; [exact Hid | now symmetry] |].
  unfold V50.scheduleCharging. rewrite Hmode, Hlist, Hdel. cbn [Z.eqb negb].
  destruct (Z.leb_spec (nextChargingDurationSeconds g) 0) as [Hle | _]; [lia |].
  exists (Schedule_List ::
          if SEND_TELEGRAM_SCHEDULE_LIST cfg
          then V50.notify cfg (V50.scheduleListMsg h) else []).
  eexists. split; [reflexivity |]. split.
  - cbn [filter isCreate].
    destruct (SEND_TELEGRAM_SCHEDULE_LIST cfg); [apply notify_isCreate | reflexivity].
  - apply in_or_app. left. apply in_map_iff. exists switchId. split; assumption.
Qed.

Lemma V50_create_only_after_delete_witness :
  let cfg := configWith [0; 1] "" "" false "19:00" in
  let g := set_nextChargingDurationSeconds initialGlobals 18000 in
  let h := hostAnswering 0 0 (fun _ => 0) in
  let c := Schedule_Create None "0 0 1 * * *" 1 18000 in
  In c (V50.scheduleCharging cfg h g) /\ isCreate c = true /\
  delete_err h = 0 /\
  exists before after,
    V50.scheduleCharging cfg h g = (before ++ Schedule_DeleteAll None :: after)%list /\
    filter isCreate before = [] /\ In c after.
Proof.
  intros cfg g h c.
  assert (Hin : In c (V50.scheduleCharging cfg h g))
    by (right; right; right; left; reflexivity).
  split; [exact Hin |]. split; [reflexivity |].
  pose proof (V50_create_only_after_delete cfg h g c Hin eq_refl) as [_ [_ [Hdel [_ [_ Hsplit]]]]].
  split; [exact Hdel | exact Hsplit].
Defined.

(** ** A whole cycle of version 5.0 *)

(** When neither [MAX_RUNTIME_HOURS] nor a fallback constant is negative or
    longer than [limit] seconds, the duration that a cycle of version 5.0
    leaves in [nextChargingDurationSeconds] lies between 0 and [limit],
    whatever the host answers.  Version 5.0 has no clamp of its own, so this
    is what keeps its charges inside the window. *)
Theorem V50_cycle_duration_within
    (cfg : config) (h : host) (g : globals) (limit : Z) :
  (0 <= MAX_RUNTIME_HOURS cfg)%Q -> Js.Math_round (MAX_RUNTIME_HOURS cfg * 3600) <= limit ->
  (forall quarter, 1 <= quarter <= 4 ->
     (0 <= quarterConstant cfg quarter)%Q /\
     Js.Math_round (quarterConstant cfg quarter * 3600) <= limit) ->
  0 <= nextChargingDurationSeconds (fst (V50.getWeatherAndCalculateDuration cfg h g))
    <= limit.
Proof.
  intros Hmax Hmaxlim Hq.
  assert (Hfb : 0 <= fallbackSeconds cfg h <= limit).
  { unfold fallbackSeconds, fallbackHours.
    pose proof (Hq 1 ltac:(lia)) as [H1 L1]. pose proof (Hq 2 ltac:(lia)) as [H2 L2].
    pose proof (Hq 3 ltac:(lia)) as [H3 L3]. pose proof (Hq 4 ltac:(lia)) as [H4 L4].
    cbn [quarterConstant] in *.
    repeat match goal with
      | |- context [if ?b then _ else _] => destruct b
      end;
      (split; [apply (fun x Hx => proj1 (Math_round_bounds x x (conj Hx (Qle_refl x))));
               assumption
              | assumption]). }
  assert (Hfc : forall avgTemp g0,
             0 <= nextChargingDurationSeconds
                    (fst (V50.calculateChargingDuration cfg h avgTemp g0)) <= limit).
  { intros avgTemp g0.
    cbn [V50.calculateChargingDuration fst set_nextChargingDurationSeconds
         nextChargingDurationSeconds].
    pose proof (Math_round_bounds _ _ (chargingHours_le_max cfg avgTemp Hmax)). lia. }
  unfold V50.getWeatherAndCalculateDuration, V50.calculateFallbackDuration.
  fold (fallbackSeconds cfg h).
  destruct (forecast_res h) as [res |]; [| exact Hfb].
  destruct (negb (forecast_err h =? 0) || negb (code res =? 200)); [exact Hfb |].
  destruct (body res) as [message | temps]; [exact Hfb |].
  destruct (List.length (slice_24_48 temps) <? 24)%nat; [exact Hfb |].
  specialize (Hfc (average (slice_24_48 temps)) g).
  now destruct (V50.calculateChargingDuration cfg h (average (slice_24_48 temps)) g).
Qed.

Lemma V50_cycle_duration_within_witness :
  (0 <= MAX_RUNTIME_HOURS CONFIG)%Q /\
  Js.Math_round (MAX_RUNTIME_HOURS CONFIG * 3600) <= span 79200 21600 /\
  0 <= nextChargingDurationSeconds
         (fst (V50.getWeatherAndCalculateDuration CONFIG (hostWith (repeat (-30)%Q 48))
                 initialGlobals))
    <= span 79200 21600.
Proof.
  split; [discriminate |]. split; [discriminate |].
  apply (V50_cycle_duration_within CONFIG (hostWith (repeat (-30)%Q 48)) initialGlobals
           (span 79200 21600)); [discriminate | discriminate |].
  intros quarter Hq.
  assert (Hc : quarter = 1 \/ quarter = 2 \/ quarter = 3 \/ quarter = 4) by lia.
  destruct Hc as [-> | [-> | [-> | ->]]]; split; discriminate.
Defined.

(** ** The daily trigger, continued *)

Lemma runFlags_app (fetchTime : string) (flag : bool) (ts us : list string) :
  runFlags fetchTime flag (ts ++ us) =
    (fst (runFlags fetchTime (fst (runFlags fetchTime flag ts)) us),
     (snd (runFlags fetchTime flag ts) +
      snd (runFlags fetchTime (fst (runFlags fetchTime flag ts)) us))%nat).
Proof.
  revert flag. induction ts as [| t ts IH]; intros flag.
  - cbn [app runFlags fst snd Nat.add]. now destruct (runFlags fetchTime flag us).
  - change ((t :: ts) ++ us)%list with (t :: (ts ++ us))%list.
    rewrite !runFlags_cons, IH. cbn [fst snd]. f_equal. lia.
Qed.

Lemma times_app (a b : list V50.tick) : times (a ++ b) = (times a ++ times b)%list.
Proof. unfold times. apply flat_map_app. Qed.

Lemma clock_length_seq :
  forallb (fun n => Nat.eqb (String.length (clock (Z.of_nat n))) 5) (seq 0 1440) = true.
Proof. vm_compute. reflexivity. Qed.

Lemma clock_length (minute : Z) :
  minuteOfDay minute -> String.length (clock minute) = 5%nat.
Proof.
  intros Hm. unfold minuteOfDay in Hm.
  pose proof (proj1 (forallb_forall _ _) clock_length_seq (Z.to_nat minute)) as Hall.
  cbv beta in Hall. rewrite Z2Nat.id in Hall by lia.
  apply Nat.eqb_eq. apply Hall. apply in_seq. lia.
Qed.

Lemma clock_eqb (m f : Z) :
  minuteOfDay m -> minuteOfDay f -> String.eqb (clock m) (clock f) = (m =? f).
Proof.
  intros Hm Hf. destruct (Z.eqb_spec m f) as [-> | Hne]; [apply String.eqb_refl |].
  apply String.eqb_neq. intros Heq. apply Hne. now apply clock_inj.
Qed.

Lemma stepFlag_clock (f : Z) (flag : bool) (m : Z) :
  minuteOfDay m -> minuteOfDay f ->
  stepFlag (clock f) flag (clock m) = stepMinute f flag m.
Proof.
  intros Hm Hf. unfold stepFlag, stepMinute.
  change "00:01" with (clock 1).
  rewrite !clock_eqb by (assumption || (unfold minuteOfDay; lia)). reflexivity.
Qed.

Lemma runFlags_clock (f : Z) (flag : bool) (minutes : list Z) :
  minuteOfDay f -> Forall minuteOfDay minutes ->
  runFlags (clock f) flag (map clock minutes) = runMinutes f flag minutes.
Proof.
  intros Hf Hmins. revert flag.
  induction Hmins as [| m minutes Hm _ IH]; intros flag; [reflexivity |].
  cbn [map runFlags runMinutes]. rewrite stepFlag_clock by assumption.
  destruct (stepMinute f flag m) as [flag1 n]. now rewrite IH.
Qed.

Lemma fullDay_minutes : Forall minuteOfDay fullDay.
Proof.
  apply Forall_forall. intros m Hin. unfold fullDay in Hin.
  apply in_map_iff in Hin as [n [<- Hn]]. apply in_seq in Hn. unfold minuteOfDay. lia.
Qed.

Lemma fullDay_minutes_seq :
  forallb (fun n =>
             let f := Z.of_nat n in
             forallb (fun flag =>
                        let r := runMinutes f flag fullDay in
                        Bool.eqb (fst r) (1 <? f) &&
                        Nat.eqb (snd r) (if (1 <? f) || negb flag then 1 else 0))
                     [true; false]) (seq 0 1440) = true.
Proof. vm_compute. reflexivity. Qed.

(** Over a complete day the trigger starts one cycle unless the day begins
    with the flag set and the fetch minute is 00:00 or 00:01; at the end of
    the day the flag is set exactly when the fetch minute is after 00:01. *)
Lemma fullDay_flags (f : Z) (flag : bool) :
  minuteOfDay f ->
  runFlags (clock f) flag (map clock fullDay) =
    (1 <? f, if (1 <? f) || negb flag then 1%nat else 0%nat).
Proof.
  intros Hf. rewrite runFlags_clock by (exact Hf || exact fullDay_minutes).
  unfold minuteOfDay in Hf.
  pose proof (proj1 (forallb_forall _ _) fullDay_minutes_seq (Z.to_nat f)) as Hall.
  cbv beta zeta in Hall. rewrite Z2Nat.id in Hall by lia.
  specialize (Hall ltac:(apply in_seq; lia)).
  pose proof (proj1 (forallb_forall _ _) Hall flag) as Hflag. cbv beta zeta in Hflag.
  specialize (Hflag ltac:(destruct flag; [left | right; left]; reflexivity)).
  apply andb_prop in Hflag as [H1 H2].
  apply Bool.eqb_prop in H1. apply Nat.eqb_eq in H2.
  rewrite (surjective_pairing (runMinutes _ _ _)). now rewrite H1, H2.
Qed.

Lemma times_tickAt (h : host) (minutes : list Z) :
  Forall minuteOfDay minutes ->
  times (map (fun m => tickAt (clock m) h) minutes) = map clock minutes.
Proof.
  induction 1 as [| m minutes Hm _ IH]; [reflexivity |].
  cbn [map]. rewrite times_cons, IH. cbn [tickAt V50.result V50.currentTime time].
  destruct (String.eqb_spec (clock m) "") as [Hempty | _]; [| reflexivity].
  pose proof (clock_length m Hm) as Hlen. rewrite Hempty in Hlen. discriminate.
Qed.

Lemma complete_days_flags (f : Z) (days : list (list V50.tick)) (flag : bool) :
  minuteOfDay f ->
  Forall (fun day => times day = map clock fullDay) days ->
  flag = false \/ 1 < f ->
  snd (runFlags (clock f) flag (times (List.concat days))) = List.length days.
Proof.
  intros Hf Hdays. revert flag.
  induction Hdays as [| day days Hday _ IH]; intros flag Hinv; [reflexivity |].
  cbn [List.concat List.length]. rewrite times_app, runFlags_app, Hday, fullDay_flags by exact Hf.
  cbn [fst snd].
  assert (Hone : (1 <? f) || negb flag = true).
  { destruct Hinv as [-> | Hlt]; [apply orb_true_r |].
    apply Z.ltb_lt in Hlt. now rewrite Hlt. }
  rewrite Hone, IH; [reflexivity |].
  destruct (Z.ltb_spec 1 f); [now right | now left].
Qed.

(** With one tick in every minute, exactly one cycle runs on each day:
    started with the initial globals, the production trigger runs [n] cycles
    over [n] complete days, for every fetch time that the clock can read and
    whatever the host answers. *)
Theorem one_cycle_each_complete_day
    (cfg : config) (f : Z) (days : list (list V50.tick)) :
  minuteOfDay f -> DATA_FETCH_TIME cfg = clock f ->
  Forall (fun day => times day = map clock fullDay) days ->
  cycles cfg (snd (V50.runTicks cfg (List.concat days) initialGlobals)) = List.length days.
Proof.
  intros Hf Hfetch Hdays.
  rewrite (proj2 (runTicks_flags cfg (List.concat days) initialGlobals)), Hfetch.
  apply complete_days_flags; [exact Hf | exact Hdays | now left].
Qed.

Lemma one_cycle_each_complete_day_witness :
  let day := map (fun m => tickAt (clock m) (hostWith (repeat 5%Q 48))) fullDay in
  minuteOfDay 1140 /\ DATA_FETCH_TIME CONFIG = clock 1140 /\
  cycles CONFIG (snd (V50.runTicks CONFIG (List.concat [day; day]) initialGlobals)) = 2%nat.
Proof.
  intros day. split; [unfold minuteOfDay; lia |]. split; [reflexivity |].
  apply (one_cycle_each_complete_day CONFIG 1140 [day; day]);
    [unfold minuteOfDay; lia | reflexivity |].
  assert (Hday : times day = map clock fullDay)
    by (apply times_tickAt; exact fullDay_minutes).
  apply Forall_cons; [exact Hday |]. apply Forall_cons; [exact Hday | apply Forall_nil].
Defined.

Lemma runFlags_no_match_flag (fetchTime : string) (flag : bool) (minutes : list Z) :
  (forall m, In m minutes -> clock m <> fetchTime) ->
  fst (runFlags fetchTime flag (map clock minutes)) = flag \/
  fst (runFlags fetchTime flag (map clock minutes)) = false.
Proof.
  revert flag. induction minutes as [| m minutes IH]; intros flag Hno; [now left |].
  cbn [map]. rewrite runFlags_cons. cbn [fst].
  assert (Hstep : fst (stepFlag fetchTime flag (clock m)) = flag \/
                  fst (stepFlag fetchTime flag (clock m)) = false).
  { unfold stepFlag. pose proof (Hno m (or_introl eq_refl)) as Hne.
    apply String.eqb_neq in Hne. rewrite Hne. cbn [andb fst]. rewrite orb_false_r.
    destruct (String.eqb (clock m) "00:01"); auto. }
  assert (Hrest : forall k, In k minutes -> clock k <> fetchTime)
    by (intros k Hk; apply Hno; now right).
  destruct Hstep as [-> | ->]; [now apply IH |].
  destruct (IH false Hrest) as [H | H]; right; exact H.
Qed.

(** The trigger compares texts: a fetch time that the clock never reads, for
    instance one that is not written with five characters, never starts a
    cycle, whatever ticks arrive; the flag is only ever reset. *)
Theorem fetch_time_must_be_clock_text
    (cfg : config) (ticks : list V50.tick) (g : globals) (minutes : list Z) :
  (String.length (DATA_FETCH_TIME cfg) <> 5%nat \/
   forall m, minuteOfDay m -> clock m <> DATA_FETCH_TIME cfg) ->
  times ticks = map clock minutes -> Forall minuteOfDay minutes ->
  cycles cfg (snd (V50.runTicks cfg ticks g)) = 0%nat /\
  (hasRunToday (fst (V50.runTicks cfg ticks g)) = hasRunToday g \/
   hasRunToday (fst (V50.runTicks cfg ticks g)) = false).
Proof.
  intros Hfetch Htimes Hmins.
  assert (Hno : forall m, In m minutes -> clock m <> DATA_FETCH_TIME cfg).
  { intros m Hin. pose proof (proj1 (Forall_forall _ _) Hmins m Hin) as Hm.
    destruct Hfetch as [Hlen | Hno]; [| now apply Hno].
    intros Heq. apply Hlen. rewrite <- Heq. now apply clock_length. }
  rewrite (proj1 (runTicks_flags cfg ticks g)), (proj2 (runTicks_flags cfg ticks g)), Htimes.
  split; [now apply runFlags_no_match | now apply runFlags_no_match_flag].
Qed.

Lemma fetch_time_must_be_clock_text_witness :
  let cfg := configWith [0] "" "" false "7:00" in
  let h := hostWith (repeat 5%Q 48) in
  let ticks := [tickAt "06:59" h; tickAt "07:00" h; tickAt "07:01" h] in
  String.length (DATA_FETCH_TIME cfg) <> 5%nat /\
  times ticks = map clock [419; 420; 421] /\
  cycles cfg (snd (V50.runTicks cfg ticks initialGlobals)) = 0%nat.
Proof.
  intros cfg h ticks. split; [discriminate |]. split; [reflexivity |].
  apply (fetch_time_must_be_clock_text cfg ticks initialGlobals [419; 420; 421]).
  - left. discriminate.
  - reflexivity.
  - repeat constructor; discriminate.
Defined.

(** ** Start-up *)

Lemma issued_app (a b : list Startup.action) :
  Startup.issued (a ++ b) = (Startup.issued a ++ Startup.issued b)%list.
Proof. unfold Startup.issued. apply flat_map_app. Qed.

Lemma issued_Issued (calls : list call) :
  Startup.issued (map Startup.Issued calls) = calls.
Proof.
  induction calls as [| c calls IH]; [reflexivity |].
  cbn [map]. change (Startup.issued (Startup.Issued c :: map Startup.Issued calls))
    with (c :: Startup.issued (map Startup.Issued calls)). now rewrite IH.
Qed.

Lemma cycles_notify (cfg : config) (message : string) :
  cycles cfg (V50.notify cfg message) = 0%nat.
Proof. unfold cycles, V50.notify. now rewrite notify_isForecastRequest. Qed.

Lemma runCycles_cons (cfg : config) (h : host) (firings : list host) (g : globals) :
  Startup.runCycles cfg (h :: firings) g =
    (fst (Startup.runCycles cfg firings
            (fst (V50.getWeatherAndCalculateDuration cfg h g))),
     (snd (V50.getWeatherAndCalculateDuration cfg h g) ++
      snd (Startup.runCycles cfg firings
             (fst (V50.getWeatherAndCalculateDuration cfg h g))))%list).
Proof.
  cbn [Startup.runCycles].
  destruct (V50.getWeatherAndCalculateDuration cfg h g) as [g1 calls]. cbn [fst snd].
  now destruct (Startup.runCycles cfg firings g1).
Qed.

Lemma runCycles_cycles (cfg : config) (firings : list host) (g : globals) :
  cycles cfg (snd (Startup.runCycles cfg firings g)) = List.length firings.
Proof.
  revert g. induction firings as [| h firings IH]; intros g; [reflexivity |].
  rewrite runCycles_cons. cbn [snd List.length].
  now rewrite cycles_app, V50_cycle_once, IH.
Qed.

Lemma runCycles_test_mode (cfg : config) (firings : list host) (g : globals) :
  IS_TEST_MODE cfg = true ->
  filter isScheduleCall (snd (Startup.runCycles cfg firings g)) = [].
Proof.
  intros Hmode. revert g. induction firings as [| h firings IH]; intros g; [reflexivity |].
  rewrite runCycles_cons. cbn [snd].
  now rewrite filter_app, V50_cycle_test_mode, IH.
Qed.

(** In test mode nothing holds the cycles back: start-up runs one cycle at
    once and one more at every firing of the timer, and none of them touches
    the schedules of the device. *)
Theorem startup_test_mode_runs_every_firing
    (cfg : config) (startup : V50.tick) (firings : list V50.tick) :
  IS_TEST_MODE cfg = true ->
  cycles cfg (Startup.issued (snd (Startup.initializeTimers cfg startup firings))) =
    S (List.length firings) /\
  filter isScheduleCall
    (Startup.issued (snd (Startup.initializeTimers cfg startup firings))) = [] /\
  In (Startup.Timer_set (TEST_INTERVAL_MINUTES cfg * 60 * 1000) true)
     (snd (Startup.initializeTimers cfg startup firings)).
Proof.
  intros Hmode. unfold Startup.initializeTimers. rewrite Hmode.
  pose proof (V50_cycle_once cfg (V50.cycleHost startup) initialGlobals) as Honce.
  pose proof (V50_cycle_test_mode cfg (V50.cycleHost startup) initialGlobals Hmode) as Hfirst.
  destruct (V50.getWeatherAndCalculateDuration cfg (V50.cycleHost startup) initialGlobals)
    as [g1 first]. cbn [snd] in Honce, Hfirst.
  pose proof (runCycles_cycles cfg (map V50.cycleHost firings) g1) as Hrest.
  pose proof (runCycles_test_mode cfg (map V50.cycleHost firings) g1 Hmode) as Hquiet.
  destruct (Startup.runCycles cfg (map V50.cycleHost firings) g1) as [g2 rest].
  cbn [snd] in *. rewrite length_map in Hrest.
  assert (Hissued : Startup.issued
            (map Startup.Issued (V50.notify cfg "Test-Modus aktiviert.") ++
             map Startup.Issued first ++
             Startup.Timer_set (TEST_INTERVAL_MINUTES cfg * 60 * 1000) true ::
             map Startup.Issued rest) =
          (V50.notify cfg "Test-Modus aktiviert." ++ first ++ rest)%list).
  { rewrite !issued_app, !issued_Issued.
    change (Startup.issued (Startup.Timer_set _ true :: map Startup.Issued rest))
      with (Startup.issued (map Startup.Issued rest)).
    now rewrite issued_Issued. }
  rewrite Hissued. split; [| split].
  - rewrite !cycles_app, cycles_notify, Honce, Hrest. reflexivity.
  - rewrite !filter_app, Hfirst, Hquiet. unfold V50.notify.
    now rewrite notify_isScheduleCall.
  - apply in_or_app. right. apply in_or_app. right. now left.
Qed.

Lemma startup_test_mode_runs_every_firing_witness :
  let cfg := configWith [0] "" "" true "19:00" in
  let h := hostWith (repeat 5%Q 48) in
  IS_TEST_MODE cfg = true /\
  cycles cfg (Startup.issued
                (snd (Startup.initializeTimers cfg (tickAt "10:00" h)
                        [tickAt "10:05" h; tickAt "10:10" h]))) = 3%nat.
Proof.
  intros cfg h. split; [reflexivity |].
  apply (proj1 (startup_test_mode_runs_every_firing cfg (tickAt "10:00" h)
                  [tickAt "10:05" h; tickAt "10:10" h] eq_refl)).
Defined.

(** In production mode the check at start-up is an ordinary [dailyCheck]: it
    starts a cycle exactly when the device reads the fetch time at that very
    minute.  A script started at any other time of the day, also after the
    fetch time, runs no cycle at start-up. *)
Theorem startup_production_checks_the_minute (cfg : config) (startup : V50.tick) :
  IS_TEST_MODE cfg = false ->
  (V50.currentTime (V50.result startup) = Some (DATA_FETCH_TIME cfg) ->
   cycles cfg (Startup.issued (snd (Startup.initializeTimers cfg startup []))) = 1%nat) /\
  (V50.currentTime (V50.result startup) <> Some (DATA_FETCH_TIME cfg) ->
   cycles cfg (Startup.issued (snd (Startup.initializeTimers cfg startup []))) = 0%nat /\
   filter isScheduleCall
     (Startup.issued (snd (Startup.initializeTimers cfg startup []))) = []).
Proof.
  intros Hmode. unfold Startup.initializeTimers. rewrite Hmode. cbn [V50.runTicks].
  assert (Hissued : forall first : list call,
             Startup.issued
               (map Startup.Issued
                  (V50.notify cfg ("Heizungs-Skript gestartet. Tägliche Prüfung um " ++
                                   DATA_FETCH_TIME cfg ++ " ist aktiv.")) ++
                Startup.Timer_set 60000 true ::
                map Startup.Issued first ++ map Startup.Issued []) =
             (V50.notify cfg ("Heizungs-Skript gestartet. Tägliche Prüfung um " ++
                              DATA_FETCH_TIME cfg ++ " ist aktiv.") ++ first)%list).
  { intros first. rewrite issued_app, issued_Issued.
    change (Startup.issued (Startup.Timer_set 60000 true ::
                            map Startup.Issued first ++ map Startup.Issued []))
      with (Startup.issued (map Startup.Issued first ++ map Startup.Issued [])).
    now rewrite issued_app, !issued_Issued, app_nil_r. }
  split.
  - intros Ht. destruct (dailyCheck_flag cfg startup initialGlobals _ Ht) as [_ Hcount].
    destruct (V50.dailyCheck cfg startup initialGlobals) as [g1 first].
    cbn [snd] in *. rewrite (Hissued first), cycles_app, cycles_notify, Hcount.
    unfold stepFlag. now rewrite String.eqb_refl.
  - intros Ht.
    assert (Hfirst : V50.dailyCheck cfg startup initialGlobals =
                     (initialGlobals, [Sys_GetStatus])).
    { destruct (V50.currentTime (V50.result startup)) as [t |] eqn:Hct;
        [| now apply dailyCheck_no_time].
      unfold V50.dailyCheck, V50.trigger, V50.reset. rewrite Hct.
      assert (Hne : String.eqb t (DATA_FETCH_TIME cfg) = false)
        by (apply String.eqb_neq; congruence).
      rewrite Hne. cbn [andb initialGlobals hasRunToday].
      now destruct (String.eqb t "00:01"). }
    rewrite Hfirst. cbn [snd]. rewrite (Hissued [Sys_GetStatus]). split.
    + now rewrite cycles_app, cycles_notify.
    + rewrite filter_app. unfold V50.notify. now rewrite notify_isScheduleCall.
Qed.

Lemma startup_production_checks_the_minute_witness :
  let h := hostWith (repeat 5%Q 48) in
  IS_TEST_MODE CONFIG = false /\
  V50.currentTime (V50.result (tickAt "20:30" h)) <> Some (DATA_FETCH_TIME CONFIG) /\
  cycles CONFIG (Startup.issued (snd (Startup.initializeTimers CONFIG (tickAt "20:30" h) []))) =
    0%nat.
Proof.
  intros h. split; [reflexivity |]. split; [discriminate |].
  apply (proj2 (startup_production_checks_the_minute CONFIG (tickAt "20:30" h) eq_refl)).
  discriminate.
Defined.

(** ** Whole cycles, continued *)

Lemma V42_cycle_required (cfg : config) (h : host) (g : globals) :
  exists required,
    V42.getWeatherAndCalculateDuration cfg h g =
      (fst (V42.scheduleCharging cfg h (set_nextChargingDurationSeconds g required)),
       snd (V42.getWeatherAndCalculateDuration cfg h g)) /\
    filter isCreate (snd (V42.getWeatherAndCalculateDuration cfg h g)) =
      filter isCreate
        (snd (V42.scheduleCharging cfg h (set_nextChargingDurationSeconds g required))) /\
    (required = fallbackSeconds cfg h \/
     exists avgTemp, required = Js.Math_round (chargingHours cfg avgTemp * 3600)).
Proof.
  unfold V42.getWeatherAndCalculateDuration, V42.calculateFallbackDuration,
    V42.calculateChargingDuration. fold (fallbackSeconds cfg h). unfold V42.notify.
  destruct (forecast_res h) as [res |];
    [destruct (negb (forecast_err h =? 0) || negb (code res =? 200));
     [| destruct (body res) as [message | temps];
        [| destruct (List.length (slice_24_48 temps) <? 24)%nat]] |].
  1-3, 5: exists (fallbackSeconds cfg h);
    destruct (V42.scheduleCharging cfg h
                (set_nextChargingDurationSeconds g (fallbackSeconds cfg h))) as [g1 calls];
    cbn [fst snd filter isCreate]; rewrite filter_app, notify_isCreate;
    (split; [reflexivity | split; [reflexivity | now left]]).
  exists (Js.Math_round (chargingHours cfg (average (slice_24_48 temps)) * 3600)).
  destruct (V42.scheduleCharging cfg h _) as [g1 calls].
  cbn [fst snd filter isCreate].
  split; [reflexivity | split; [reflexivity | right; now eexists]].
Qed.

(** Version 4.2 charges every night: with a window of positive span and
    fallback constants that are not negative, a production cycle asks for one
    timed action per configured switch, with a positive duration of at most
    the span, whatever the forecast is and whatever the host answers. *)
Theorem V42_cycle_always_charges (cfg : config) (h : host) (g : globals) (ws we : Z) :
  timeToSeconds (CHARGING_WINDOW_START cfg) = Some ws ->
  timeToSeconds (CHARGING_WINDOW_END cfg) = Some we ->
  inDay ws -> inDay we -> 0 < span ws we ->
  (forall quarter, 1 <= quarter <= 4 -> (0 <= quarterConstant cfg quarter)%Q) ->
  IS_TEST_MODE cfg = false ->
  exists timespec duration,
    0 < duration <= span ws we /\
    filter isCreate (snd (V42.getWeatherAndCalculateDuration cfg h g)) =
      map (fun id => Schedule_Create (Some id) timespec id duration) (SWITCH_IDS cfg).
Proof.
  intros Hs He Hws Hwe Hpos Hq Hmode.
  destruct (V42_cycle_required cfg h g) as [required [_ [Hcalls Hreq]]].
  assert (Hnonneg : 0 <= required).
  { destruct Hreq as [-> | [avgTemp ->]].
    - unfold fallbackSeconds, fallbackHours.
      pose proof (Hq 1 ltac:(lia)) as H1. pose proof (Hq 2 ltac:(lia)) as H2.
      pose proof (Hq 3 ltac:(lia)) as H3. pose proof (Hq 4 ltac:(lia)) as H4.
      cbn [quarterConstant] in *.
      repeat match goal with
        | |- context [if ?b then _ else _] => destruct b
        end;
        apply (fun x Hx => proj1 (Math_round_bounds x x (conj Hx (Qle_refl x)))); assumption.
    - apply (fun x Hx => proj1 (Math_round_bounds x x (conj Hx (Qle_refl x)))).
      unfold chargingHours.
      match goal with |- (0 <= if Qlt_le_dec ?x 0 then _ else _)%Q =>
        destruct (Qlt_le_dec x 0) as [_ | Hge]; [apply Qle_refl | exact Hge] end. }
  destruct (backwardSchedule_positive_span cfg ws we required Hs He Hws Hwe Hpos Hnonneg)
    as [start [duration [Hplan [Hdur _]]]].
  destruct (V42_scheduleCharging_creates cfg h (set_nextChargingDurationSeconds g required)
              Hmode) as [timespec Hcreates].
  - cbn [nextChargingDurationSeconds set_nextChargingDurationSeconds].
    rewrite Hplan. cbn [fst]. lia.
  - cbn [nextChargingDurationSeconds set_nextChargingDurationSeconds] in Hcreates.
    rewrite Hplan in Hcreates. cbn [fst] in Hcreates.
    exists timespec, duration. split; [exact Hdur |]. now rewrite Hcalls.
Qed.

Lemma V42_cycle_always_charges_witness :
  let h := hostWith (repeat 25%Q 48) in
  timeToSeconds (CHARGING_WINDOW_START CONFIG_4_2_production) = Some 79200 /\
  timeToSeconds (CHARGING_WINDOW_END CONFIG_4_2_production) = Some 21600 /\
  inDay 79200 /\ inDay 21600 /\ 0 < span 79200 21600 /\
  IS_TEST_MODE CONFIG_4_2_production = false /\
  exists timespec duration,
    0 < duration <= span 79200 21600 /\
    filter isCreate
      (snd (V42.getWeatherAndCalculateDuration CONFIG_4_2_production h initialGlobals)) =
      map (fun id => Schedule_Create (Some id) timespec id duration)
          (SWITCH_IDS CONFIG_4_2_production).
Proof.
  intros h. split; [reflexivity |]. split; [reflexivity |].
  split; [unfold inDay; lia |]. split; [unfold inDay; lia |].
  split; [reflexivity |]. split; [reflexivity |].
  apply (V42_cycle_always_charges CONFIG_4_2_production h initialGlobals 79200 21600);
    try reflexivity; try (unfold inDay; lia).
  intros quarter Hq.
  assert (Hc : quarter = 1 \/ quarter = 2 \/ quarter = 3 \/ quarter = 4) by lia.
  destruct Hc as [-> | [-> | [-> | ->]]]; discriminate.
Defined.

(** Only the forecast path stores the temperature: after a cycle of version
    5.0 that fell back to the seasonal duration, [lastAvgTemp] is what it was
    before, so the messages about the plan report the temperature of an
    earlier cycle, or -999.00 when there was none. *)
Theorem V50_fallback_keeps_lastAvgTemp
    (cfg : config) (h : host) (g : globals) :
  transportFailure h \/ (exists message, malformedBody h message) ->
  lastAvgTemp (fst (V50.getWeatherAndCalculateDuration cfg h g)) = lastAvgTemp g /\
  V50.noChargingMessage cfg (fst (V50.getWeatherAndCalculateDuration cfg h g)) =
    V50.noChargingMessage cfg g /\
  (lastAvgTemp g = lastAvgTemp initialGlobals ->
   Js.toFixed2 (lastAvgTemp (fst (V50.getWeatherAndCalculateDuration cfg h g))) = "-999.00").
Proof.
  intros Hfail.
  assert (Hg : fst (V50.getWeatherAndCalculateDuration cfg h g) =
               set_nextChargingDurationSeconds g (fallbackSeconds cfg h)).
  { destruct Hfail as [Ht | [message Hm]].
    - now rewrite (V50_cycle_transport_failure cfg h g Ht).
    - now rewrite (V50_cycle_malformed cfg h g message Hm). }
  rewrite Hg. split; [reflexivity |]. split; [reflexivity |].
  cbn [set_nextChargingDurationSeconds lastAvgTemp]. intros ->. reflexivity.
Qed.

Lemma V50_fallback_keeps_lastAvgTemp_witness :
  let h := hostAnswering 0 0 (fun _ => 0) in
  transportFailure h /\
  Js.toFixed2 (lastAvgTemp (fst (V50.getWeatherAndCalculateDuration CONFIG h initialGlobals))) =
    "-999.00".
Proof.
  intros h. assert (Hfail : transportFailure h) by (left; discriminate).
  split; [exact Hfail |].
  apply (proj2 (proj2 (V50_fallback_keeps_lastAvgTemp CONFIG h initialGlobals
                         (or_introl Hfail)))).
  reflexivity.
Defined.
